(** * Clipboard synchronisation of the iron-remote-desktop web component

    A shallow embedding of the clipboard subsystem of
    [web-client/iron-remote-desktop/src/iron-remote-desktop.svelte]:
    the focus gate ([runWhenWindowFocused], [focusEventHandler]), the
    standard polling synchronisation ([onRemoteClipboardChanged],
    [onMonitorClipboard]), capability detection ([initClipboard]) and the
    Firefox bridge ([ffOnPasteHandler], [ffWaitForRemoteClipboardDataSet],
    [captureKeys], [ffSimulateDelayedKeyEvents], [keyboardEvent]).

    Conventions of the embedding.
    - The module-level [let] variables of the component are the fields of
      explicit state records; every handler is a function on that state.
    - A JavaScript string is a [string]; a [Uint8Array] is a [list byte];
      text is identified with its UTF-8 bytes.
    - Calls into the platform or into the remote module that only produce an
      effect ([navigator.clipboard.write], [sendKeyboardEvent],
      [onClipboardChanged], [setTimeout]) append to a log kept in the state.
    - A [try]/[catch] is written out: a callee that may throw returns a
      completion, and the handler catches it where the source does. *)

From Stdlib Require Import String Ascii List Bool Arith ZArith Lia.
From Stdlib.Strings Require Import Byte.
Import ListNotations.
Local Open Scope string_scope.
Local Open Scope list_scope.

(** ** JavaScript string primitives used by the component *)

(** [s.startsWith(p)]. *)
Definition startsWith (s p : string) : bool := String.prefix p s.

(** [c] lower-cased; only the ASCII letters matter for the ['firefox'] test. *)
Definition lowerAscii (c : ascii) : ascii :=
  let n := nat_of_ascii c in
  if ((65 <=? n) && (n <=? 90))%nat then ascii_of_nat (n + 32)%nat else c.

(** [s.toLowerCase()]. *)
Fixpoint toLowerCase (s : string) : string :=
  match s with
  | EmptyString => EmptyString
  | String c r => String (lowerAscii c) (toLowerCase r)
  end.

(** [s.indexOf(sub)]: the first position of [sub] in [s], or [-1]. *)
Definition indexOf (s sub : string) : Z :=
  match String.index 0%nat sub s with
  | Some n => Z.of_nat n
  | None => (-1)%Z
  end.

(** ** FocusGate: [runWhenWindowFocused] and [focusEventHandler] *)

Section FocusGate.

(** The closures held by [runWhenFocusedQueue], and the remaining
    variables of the component a closure may read and write. *)
Variables (A D : Type).

(** [hasFocus] is the current answer of [document.hasFocus()]. *)
Record Gate : Type := mkGate {
  hasFocus : bool;
  runWhenFocusedQueue : list A;
  vars : D
}.

(** How a call ends: it returns, or it throws, in either case leaving the
    component in some state. *)
Inductive Completion : Type :=
| Returned (st : Gate)
| Threw (err : string) (st : Gate).

Definition completionState (c : Completion) : Gate :=
  match c with Returned st => st | Threw _ st => st end.

(** Calling a queued closure: [fn()]. *)
Variable call : A -> Gate -> Completion.

Definition withQueue (q : list A) (st : Gate) : Gate :=
  mkGate (hasFocus st) q (vars st).

(** [runWhenFocusedQueue.push(fn)]. *)
Definition push (fn : A) (st : Gate) : Gate :=
  withQueue (runWhenFocusedQueue st ++ [fn]) st.

(** [runWhenWindowFocused(fn)]: run now when the document has focus,
    queue otherwise. *)
Definition runWhenWindowFocused (fn : A) (st : Gate) : Completion :=
  if hasFocus st then call fn st else Returned (push fn st).

(** [focusEventHandler()]:
    [while (queue.length > 0) { const fn = queue.shift(); fn?.(); }].
    There is no [try] around [fn()], so a throwing closure ends the
    handler.  The loop is bounded by [fuel]; [None] is returned only when
    the fuel runs out with closures still queued.  The first component
    lists the closures invoked, in invocation order. *)
Fixpoint focusEventHandler (fuel : nat) (st : Gate)
  : list A * option Completion :=
  match runWhenFocusedQueue st with
  | [] => ([], Some (Returned st))
  | fn :: rest =>
      match fuel with
      | O => ([], None)
      | S fuel' =>
          match call fn (withQueue rest st) with
          | Returned st' =>
              let r := focusEventHandler fuel' st' in (fn :: fst r, snd r)
          | Threw e st' => ([fn], Some (Threw e st'))
          end
      end
  end.

(** A closure is inert when, from every state, it returns and leaves the
    queue as it found it. *)
Definition inert (fn : A) : Prop :=
  forall s, exists s',
    call fn s = Returned s' /\ runWhenFocusedQueue s' = runWhenFocusedQueue s.

(** A closure always fails when, from every state, it throws and leaves
    the queue as it found it. *)
Definition alwaysThrows (fn : A) : Prop :=
  forall s, exists e s',
    call fn s = Threw e s' /\ runWhenFocusedQueue s' = runWhenFocusedQueue s.

(** A closure only appends when the queue it leaves extends the one it
    found. *)
Definition appendsOnly (fn : A) : Prop :=
  forall s, exists l,
    runWhenFocusedQueue (completionState (call fn s)) = runWhenFocusedQueue s ++ l.

End FocusGate.

Arguments mkGate {A D} _ _ _.
Arguments hasFocus {A D} _.
Arguments runWhenFocusedQueue {A D} _.
Arguments vars {A D} _.
Arguments Returned {A D} _.
Arguments Threw {A D} _ _.
Arguments completionState {A D} _.
Arguments withQueue {A D} _ _.
Arguments push {A D} _ _.
Arguments runWhenWindowFocused {A D} _ _ _.
Arguments focusEventHandler {A D} _ _ _.
Arguments inert {A D} _ _.
Arguments alwaysThrows {A D} _ _.
Arguments appendsOnly {A D} _ _.

(** Three kinds of closure to exercise the gate: one that records a mark,
    one that throws, and one that hands another closure to
    [runWhenWindowFocused]. *)
Inductive Probe : Type :=
| Mark (n : nat)
| Raise (msg : string)
| Defer (p : Probe).

Fixpoint callProbe (p : Probe) (st : Gate Probe (list nat))
  : Completion Probe (list nat) :=
  match p with
  | Mark n => Returned (mkGate (hasFocus st) (runWhenFocusedQueue st) (vars st ++ [n]))
  | Raise msg => Threw msg st
  | Defer q => if hasFocus st then callProbe q st else Returned (push q st)
  end.

(** ** Clipboard data model *)

(** A value held in a clipboard record: [string | Uint8Array]. *)
Inductive JsValue : Type :=
| VString (s : string)
| VBytes (b : list byte).

(** [Record<string, V>]: a JavaScript object used as a map.  Keys are kept
    in insertion order, which is the order [Object.entries] enumerates. *)
Definition Rec (V : Type) : Type := list (string * V).

(** [r[k]]; [None] is [undefined]. *)
Fixpoint recGet {V : Type} (r : Rec V) (k : string) : option V :=
  match r with
  | [] => None
  | (k', v) :: r' => if String.eqb k' k then Some v else recGet r' k
  end.

(** [r[k] = v]: overwrite in place when the key exists, append otherwise.
    The keys are MIME types, none of which is integer-like, so insertion
    order is the order of enumeration. *)
Fixpoint recSet {V : Type} (k : string) (v : V) (r : Rec V) : Rec V :=
  match r with
  | [] => [(k, v)]
  | (k', v') :: r' =>
      if String.eqb k' k then (k', v) :: r' else (k', v') :: recSet k v r'
  end.

(** One entry of the remote module's clipboard data: [mimeType()], [value()]. *)
Record ClipboardItem : Type := mkItem {
  mimeType : string;
  value : JsValue
}.

(** Modelled from the spec: the clipboard-data object of the remote module
    ([module.ClipboardData]: create, add-text, add-binary, is-empty,
    enumerate items), whose class is compiled from code outside this file.
    An object with zero added entries is empty.  [itemsThrows] marks an
    object whose enumeration raises, which is what the [try] blocks around
    [data.items()] guard against. *)
Record ClipboardData : Type := mkData {
  entries : list ClipboardItem;
  itemsThrows : bool
}.

Definition newClipboardData : ClipboardData := mkData [] false.

Definition addText (mime : string) (s : string) (d : ClipboardData) : ClipboardData :=
  mkData (entries d ++ [mkItem mime (VString s)]) (itemsThrows d).

Definition addBinary (mime : string) (b : list byte) (d : ClipboardData) : ClipboardData :=
  mkData (entries d ++ [mkItem mime (VBytes b)]) (itemsThrows d).

Definition isEmpty (d : ClipboardData) : bool :=
  match entries d with [] => true | _ :: _ => false end.

(** [data.items()]; [None] when the call throws. *)
Definition items (d : ClipboardData) : option (list ClipboardItem) :=
  if itemsThrows d then None else Some (entries d).

(** A platform [Blob]: its MIME tag and its bytes. *)
Record Blob : Type := mkBlob {
  blobType : string;
  blobBytes : list byte
}.

(** [new Blob([v], { type: mime })].  The tag is kept as given; the
    platform normalises its letter case, which nothing below relies on. *)
Definition newBlob (v : JsValue) (mime : string) : Blob :=
  match v with
  | VString s => mkBlob mime (list_byte_of_string s)
  | VBytes b => mkBlob mime b
  end.

(** [await blob.text()], for bytes that are valid UTF-8. *)
Definition blobText (b : Blob) : string := string_of_list_byte (blobBytes b).

(** [clipboardDataToRecord(data)]. *)
Definition clipboardDataToRecord (data : ClipboardData) : option (Rec Blob) :=
  match items data with
  | None => None
  | Some its =>
      Some (fold_left
              (fun result item =>
                 recSet (mimeType item) (newBlob (value item) (mimeType item)) result)
              its [])
  end.

(** [clipboardDataToClipboardItemsRecord(data)]. *)
Definition clipboardDataToClipboardItemsRecord (data : ClipboardData)
  : option (Rec JsValue) :=
  match items data with
  | None => None
  | Some its =>
      Some (fold_left (fun result item => recSet (mimeType item) (value item) result)
              its [])
  end.

(** ** StandardClipboardSync *)

(** The variables of the standard path, with the logs of its effects:
    [clipboardWrites] are the [navigator.clipboard.write([item])] calls,
    [clipboardChanged] the payloads handed to
    [remoteDesktopService.onClipboardChanged], [monitorTimeouts] the number
    of [setTimeout(onMonitorClipboard, ...)] calls. *)
Record Sync : Type := mkSync {
  lastClientClipboardItems : Rec JsValue;
  lastReceivedClipboardData : Rec JsValue;
  lastSentClipboardData : option ClipboardData;
  lastClipboardMonitorLoopError : option string;
  componentDestroyed : bool;
  clipboardWrites : list (Rec Blob);
  clipboardChanged : list ClipboardData;
  monitorTimeouts : nat
}.

Definition setLastClient (r : Rec JsValue) (s : Sync) : Sync :=
  mkSync r (lastReceivedClipboardData s) (lastSentClipboardData s)
         (lastClipboardMonitorLoopError s) (componentDestroyed s)
         (clipboardWrites s) (clipboardChanged s) (monitorTimeouts s).

Definition setLastError (e : string) (s : Sync) : Sync :=
  mkSync (lastClientClipboardItems s) (lastReceivedClipboardData s)
         (lastSentClipboardData s) (Some e) (componentDestroyed s)
         (clipboardWrites s) (clipboardChanged s) (monitorTimeouts s).

(** The closure queued by [onRemoteClipboardChanged]; it captures [data]
    and [clipboard_item]. *)
Inductive Pending : Type :=
| WriteRemoteClipboard (data : ClipboardData) (clipboard_item : Rec Blob).

Definition Component : Type := Gate Pending Sync.

(** The body of that closure: record the snapshot, then write. *)
Definition callPending (fn : Pending) (st : Component) : Completion Pending Sync :=
  match fn with
  | WriteRemoteClipboard data clipboard_item =>
      match clipboardDataToClipboardItemsRecord data with
      | None => Threw "items" st
      | Some snapshot =>
          let s := vars st in
          Returned
            (mkGate (hasFocus st) (runWhenFocusedQueue st)
               (mkSync (lastClientClipboardItems s) snapshot
                  (lastSentClipboardData s) (lastClipboardMonitorLoopError s)
                  (componentDestroyed s) (clipboardWrites s ++ [clipboard_item])
                  (clipboardChanged s) (monitorTimeouts s)))
      end
  end.

(** [onRemoteClipboardChanged(data)].  Whatever is thrown inside the [try]
    is caught and the state reached so far is kept. *)
Definition onRemoteClipboardChanged (data : ClipboardData) (st : Component) : Component :=
  match items data with
  | None => st
  | Some _ =>
      match clipboardDataToRecord data with
      | None => st
      | Some mime_formats =>
          completionState
            (runWhenWindowFocused callPending (WriteRemoteClipboard data mime_formats) st)
      end
  end.

(** What [navigator.clipboard.read()] yields: the first [ClipboardItem]'s
    [types], and for each kind the blob [getType] resolves to ([None] when
    it rejects). *)
Record ReadItem : Type := mkReadItem {
  types : list string;
  getType : string -> option Blob
}.

Inductive ReadResult : Type :=
| ReadRejected (err : string)
| ReadResolved (items : list ReadItem).

(** [a.length === b.length && a.every((v, i) => v === b[i])]. *)
Definition bytesEqual (a b : list byte) : bool :=
  (length a =? length b)%nat
  && forallb (fun vw => Byte.eqb (fst vw) (snd vw)) (combine a b).

(** The comparison [is_equal] picked per kind: [a === b] for a text kind,
    the [Uint8Array] comparison otherwise.  The second argument is always
    the freshly read value, so two byte arrays never meet under [===]. *)
Definition is_equal (blobIsString : bool) (a b : option JsValue) : bool :=
  if blobIsString then
    match a, b with
    | Some (VString x), Some (VString y) => String.eqb x y
    | None, None => true
    | _, _ => false
    end
  else
    match a, b with
    | Some (VBytes x), Some (VBytes y) => bytesEqual x y
    | _, _ => false
    end.

(** The locals of one polling pass, together with the client snapshot the
    loop body may write. *)
Record Pass : Type := mkPass {
  client : Rec JsValue;
  values : Rec JsValue;
  sameValue : bool
}.

(** The value read for [kind]: text for [text/*], bytes otherwise. *)
Definition readValue (kind : string) (blob : Blob) : JsValue :=
  if startsWith kind "text/" then VString (blobText blob) else VBytes (blobBytes blob).

(** One iteration of [for (const kind of item.types)]; [None] when
    [item.getType(kind)] rejects. *)
Definition monitorKind (item : ReadItem) (received : Rec JsValue)
           (kind : string) (p : Pass) : option Pass :=
  let blobIsString := startsWith kind "text/" in
  match getType item kind with
  | None => None
  | Some blob =>
      let v := readValue kind blob in
      let previousValue := recGet (client p) kind in
      if negb (is_equal blobIsString previousValue (Some v)) then
        if is_equal blobIsString (recGet received kind) (Some v) then
          match recGet received kind with
          | Some r => Some (mkPass (recSet kind r (client p)) (recSet kind v (values p)) (sameValue p))
          | None => Some (mkPass (client p) (recSet kind v (values p)) (sameValue p))
          end
        else Some (mkPass (client p) (recSet kind v (values p)) false)
      else Some (mkPass (client p) (recSet kind v (values p)) (sameValue p))
  end.

(** The whole loop; on a rejection the pass reached so far is returned with
    the error. *)
Fixpoint monitorKinds (item : ReadItem) (received : Rec JsValue)
         (kinds : list string) (p : Pass) : Pass * option string :=
  match kinds with
  | [] => (p, None)
  | kind :: rest =>
      match monitorKind item received kind p with
      | None => (p, Some "getType")
      | Some p' => monitorKinds item received rest p'
      end
  end.

(** [Object.entries(values).forEach(...)]: text entries through [addText],
    image entries through [addBinary], anything else skipped. *)
Definition buildClipboardData (vals : Rec JsValue) : ClipboardData :=
  fold_left
    (fun cd kv =>
       match snd kv with
       | VString s =>
           if startsWith (fst kv) "text/" then addText (fst kv) s cd else cd
       | VBytes b =>
           if startsWith (fst kv) "image/" then addBinary (fst kv) b cd else cd
       end)
    vals newClipboardData.

(** The [catch] block of the monitor, for a thrown value that is an
    [Error]. *)
Definition monitorCatch (err : string) (st : Component) : Component :=
  mkGate (hasFocus st) (runWhenFocusedQueue st) (setLastError err (vars st)).

(** The [finally] block of the monitor. *)
Definition monitorFinally (st : Component) : Component :=
  let s := vars st in
  if componentDestroyed s then st
  else
    mkGate (hasFocus st) (runWhenFocusedQueue st)
      (mkSync (lastClientClipboardItems s) (lastReceivedClipboardData s)
         (lastSentClipboardData s) (lastClipboardMonitorLoopError s)
         (componentDestroyed s) (clipboardWrites s) (clipboardChanged s)
         (S (monitorTimeouts s))).

(** The [!sameValue] branch: replace the snapshot, build and send. *)
Definition monitorSend (vals : Rec JsValue) (st : Component) : Component :=
  let s := vars st in
  let clipboardData := buildClipboardData vals in
  if negb (isEmpty clipboardData) then
    mkGate (hasFocus st) (runWhenFocusedQueue st)
      (mkSync vals (lastReceivedClipboardData s) (Some clipboardData)
         (lastClipboardMonitorLoopError s) (componentDestroyed s)
         (clipboardWrites s) (clipboardChanged s ++ [clipboardData])
         (monitorTimeouts s))
  else
    mkGate (hasFocus st) (runWhenFocusedQueue st) (setLastClient vals s).

(** The representations the monitor supports:
    [type.startsWith('text/') || type.startsWith('image/png')]. *)
Definition eligible (type : string) : bool :=
  startsWith type "text/" || startsWith type "image/png".

(** The [try] block of [onMonitorClipboard]. *)
Definition monitorTry (read : ReadResult) (st : Component) : Component :=
  if negb (hasFocus st) then st
  else
    match read with
    | ReadRejected err => monitorCatch err st
    | ReadResolved [] => st
    | ReadResolved (item :: _) =>
        if negb (existsb eligible (types item)) then st
        else
          let s := vars st in
          let r := monitorKinds item (lastReceivedClipboardData s) (types item)
                     (mkPass (lastClientClipboardItems s) [] true) in
          let st1 := mkGate (hasFocus st) (runWhenFocusedQueue st)
                       (setLastClient (client (fst r)) s) in
          match snd r with
          | Some err => monitorCatch err st1
          | None =>
              if sameValue (fst r) then st1 else monitorSend (values (fst r)) st1
          end
    end.

(** [onMonitorClipboard()], one tick of the polling loop, given what the
    platform read yields. *)
Definition onMonitorClipboard (read : ReadResult) (st : Component) : Component :=
  monitorFinally (monitorTry read st).

(** A run of ticks, one per observation. *)
Definition monitorRun (reads : list ReadResult) (st : Component) : Component :=
  fold_left (fun s read => onMonitorClipboard read s) reads st.

(** ** CapabilityDetector *)

(** [navigator.clipboard] as the component probes it: which of [read],
    [write] and [writeText] are defined. *)
Record ClipboardApi : Type := mkApi {
  hasRead : bool;
  hasWrite : bool;
  hasWriteText : bool
}.

(** [navigator]: the user-agent string and the clipboard object
    ([None] is [undefined]). *)
Record Navigator : Type := mkNavigator {
  userAgent : string;
  clipboard : option ClipboardApi
}.

(** [navigator.userAgent.toLowerCase().indexOf('firefox') > -1]. *)
Definition isFirefox (nav : Navigator) : bool :=
  (indexOf (toLowerCase (userAgent nav)) "firefox" >? -1)%Z.

(** Which function [setOnRemoteClipboardChanged] received. *)
Inductive RemoteClipboardHandler : Type :=
| UseOnRemoteClipboardChanged
| UseFfOnRemoteClipboardChanged.

(** What [initClipboard] leaves behind: the flag it computes, the callbacks
    it registers with the remote desktop service and whether it starts the
    monitoring loop. *)
Record Registration : Type := mkRegistration {
  isClipboardApiSupported : bool;
  remoteClipboardChanged : option RemoteClipboardHandler;
  remoteReceivedFormatList : bool;
  forceClipboardUpdate : bool;
  monitoringStarted : bool
}.

(** [initClipboard()]. *)
Definition initClipboard (nav : Navigator) : Registration :=
  let supported :=
    if negb (isFirefox nav) then
      match clipboard nav with
      | Some api => hasRead api && hasWrite api
      | None => false
      end
    else false in
  if isFirefox nav then
    mkRegistration supported (Some UseFfOnRemoteClipboardChanged) true true false
  else if supported then
    mkRegistration supported (Some UseOnRemoteClipboardChanged) false true true
  else
    mkRegistration supported None false false false.

(** The three modes of the specification. *)
Inductive Mode : Type := Standard | Degraded | Unsupported.

(** The mode a registration amounts to: the polling path, the Firefox
    bridge, or no clipboard integration at all. *)
Definition clipboardMode (r : Registration) : Mode :=
  match remoteClipboardChanged r with
  | Some UseOnRemoteClipboardChanged => Standard
  | Some UseFfOnRemoteClipboardChanged => Degraded
  | None => Unsupported
  end.

(** A browser lacks the asynchronous API when [navigator.clipboard] is
    undefined or misses [read] or [write]. *)
Definition lacksAsyncClipboard (nav : Navigator) : bool :=
  match clipboard nav with
  | Some api => negb (hasRead api && hasWrite api)
  | None => true
  end.

(** ** DegradedClipboardBridge *)

(** The fields of a [KeyboardEvent] the component looks at. *)
Record KeyboardEvent : Type := mkKey {
  ctrlKey : bool;
  code : string
}.

Definition isCopyKeyboardEvent (evt : KeyboardEvent) : bool :=
  (ctrlKey evt && String.eqb (code evt) "KeyC")
  || (ctrlKey evt && String.eqb (code evt) "KeyX")
  || String.eqb (code evt) "Copy"
  || String.eqb (code evt) "Cut".

Definition isPasteKeyboardEvent (evt : KeyboardEvent) : bool :=
  (ctrlKey evt && String.eqb (code evt) "KeyV") || String.eqb (code evt) "Paste".

Definition FF_REMOTE_CLIPBOARD_DATA_SET_RETRY_INTERVAL : nat := 100.
Definition FF_REMOTE_CLIPBOARD_DATA_SET_MAX_RETRIES : nat := 30.
Definition FF_LOCAL_CLIPBOARD_COPY_TIMEOUT : nat := 1000.

(** The callbacks the bridge hands to [setTimeout]. *)
Inductive Callback : Type :=
| WaitForRemoteClipboardDataSet
| SimulateDelayedKeyEvents.

Definition callbackEqb (a b : Callback) : bool :=
  match a, b with
  | WaitForRemoteClipboardDataSet, WaitForRemoteClipboardDataSet => true
  | SimulateDelayedKeyEvents, SimulateDelayedKeyEvents => true
  | _, _ => false
  end.

(** The variables of the Firefox bridge, with the logs of its effects:
    [writeTextCalls] are the [navigator.clipboard.writeText] calls,
    [sentKeyboardEvents] the events handed to
    [remoteDesktopService.sendKeyboardEvent], [timeouts] the pending
    [setTimeout(callback, delay)] requests, oldest first. *)
Record Bridge : Type := mkBridge {
  navigator : Navigator;
  ffRemoteClipboardData : option ClipboardData;
  ffRemoteClipboardDataRetriesLeft : nat;
  ffPostponeKeyboardEvents : bool;
  ffDelayedKeyboardEvents : list KeyboardEvent;
  writeTextCalls : list string;
  sentKeyboardEvents : list KeyboardEvent;
  timeouts : list (Callback * nat)
}.

Definition setRemoteData (d : option ClipboardData) (st : Bridge) : Bridge :=
  mkBridge (navigator st) d (ffRemoteClipboardDataRetriesLeft st)
    (ffPostponeKeyboardEvents st) (ffDelayedKeyboardEvents st)
    (writeTextCalls st) (sentKeyboardEvents st) (timeouts st).

Definition setRetriesLeft (n : nat) (st : Bridge) : Bridge :=
  mkBridge (navigator st) (ffRemoteClipboardData st) n
    (ffPostponeKeyboardEvents st) (ffDelayedKeyboardEvents st)
    (writeTextCalls st) (sentKeyboardEvents st) (timeouts st).

Definition setPostpone (b : bool) (st : Bridge) : Bridge :=
  mkBridge (navigator st) (ffRemoteClipboardData st)
    (ffRemoteClipboardDataRetriesLeft st) b (ffDelayedKeyboardEvents st)
    (writeTextCalls st) (sentKeyboardEvents st) (timeouts st).

Definition setDelayed (l : list KeyboardEvent) (st : Bridge) : Bridge :=
  mkBridge (navigator st) (ffRemoteClipboardData st)
    (ffRemoteClipboardDataRetriesLeft st) (ffPostponeKeyboardEvents st) l
    (writeTextCalls st) (sentKeyboardEvents st) (timeouts st).

(** [setTimeout(cb, delay)]. *)
Definition setTimeout (cb : Callback) (delay : nat) (st : Bridge) : Bridge :=
  mkBridge (navigator st) (ffRemoteClipboardData st)
    (ffRemoteClipboardDataRetriesLeft st) (ffPostponeKeyboardEvents st)
    (ffDelayedKeyboardEvents st) (writeTextCalls st) (sentKeyboardEvents st)
    (timeouts st ++ [(cb, delay)]).

Definition setTimeouts (l : list (Callback * nat)) (st : Bridge) : Bridge :=
  mkBridge (navigator st) (ffRemoteClipboardData st)
    (ffRemoteClipboardDataRetriesLeft st) (ffPostponeKeyboardEvents st)
    (ffDelayedKeyboardEvents st) (writeTextCalls st) (sentKeyboardEvents st) l.

(** [navigator.clipboard != undefined && navigator.clipboard.writeText != undefined]. *)
Definition browserHasClipboardAccess (nav : Navigator) : bool :=
  match clipboard nav with
  | Some api => hasWriteText api
  | None => false
  end.

(** [navigator.clipboard.writeText(value)]: the call is logged; where the
    function is undefined the call throws and the surrounding [catch]
    swallows it. *)
Definition writeText (v : string) (st : Bridge) : Bridge :=
  if browserHasClipboardAccess (navigator st) then
    mkBridge (navigator st) (ffRemoteClipboardData st)
      (ffRemoteClipboardDataRetriesLeft st) (ffPostponeKeyboardEvents st)
      (ffDelayedKeyboardEvents st) (writeTextCalls st ++ [v])
      (sentKeyboardEvents st) (timeouts st)
  else st.

(** [remoteDesktopService.sendKeyboardEvent(evt)]. *)
Definition sendKeyboardEvent (evt : KeyboardEvent) (st : Bridge) : Bridge :=
  mkBridge (navigator st) (ffRemoteClipboardData st)
    (ffRemoteClipboardDataRetriesLeft st) (ffPostponeKeyboardEvents st)
    (ffDelayedKeyboardEvents st) (writeTextCalls st)
    (sentKeyboardEvents st ++ [evt]) (timeouts st).

(** [ffOnRemoteClipboardChanged(data)]: [data.items()] is called for the
    log before the assignment, outside any [try]. *)
Definition ffOnRemoteClipboardChanged (data : ClipboardData) (st : Bridge) : Bridge :=
  match items data with
  | None => st
  | Some _ => setRemoteData (Some data) st
  end.

(** The loop [for (const item of items)] of the wait function: the first
    [text/plain] item ends it, written only when its value is a string. *)
Fixpoint writeFirstTextPlain (its : list ClipboardItem) (st : Bridge) : Bridge :=
  match its with
  | [] => st
  | item :: rest =>
      if String.eqb (mimeType item) "text/plain" then
        match value item with
        | VString v => writeText v st
        | VBytes _ => st
        end
      else writeFirstTextPlain rest st
  end.

(** [ffWaitForRemoteClipboardDataSet()]. *)
Definition ffWaitForRemoteClipboardDataSet (st : Bridge) : Bridge :=
  match ffRemoteClipboardData st with
  | Some clipboard_data =>
      let st1 := setRemoteData None st in
      match items clipboard_data with
      | None => st1
      | Some its => writeFirstTextPlain its st1
      end
  | None =>
      if (0 <? ffRemoteClipboardDataRetriesLeft st)%nat then
        setTimeout WaitForRemoteClipboardDataSet
          FF_REMOTE_CLIPBOARD_DATA_SET_RETRY_INTERVAL
          (setRetriesLeft (pred (ffRemoteClipboardDataRetriesLeft st)) st)
      else st
  end.

(** [keyboardEvent(evt)]. *)
Definition keyboardEvent (evt : KeyboardEvent) (st : Bridge) : Bridge :=
  let st1 :=
    if isFirefox (navigator st) && browserHasClipboardAccess (navigator st)
       && isCopyKeyboardEvent evt
    then ffWaitForRemoteClipboardDataSet
           (setRetriesLeft FF_REMOTE_CLIPBOARD_DATA_SET_MAX_RETRIES st)
    else st in
  sendKeyboardEvent evt st1.

(** [ffSimulateDelayedKeyEvents()]. *)
Definition ffSimulateDelayedKeyEvents (st : Bridge) : Bridge :=
  let st1 :=
    match ffDelayedKeyboardEvents st with
    | [] => st
    | _ :: _ =>
        setDelayed []
          (fold_left (fun s evt => keyboardEvent evt s) (ffDelayedKeyboardEvents st) st)
    end in
  setPostpone false st1.

(** [ffOnRemoteReceivedFormatList()]. *)
Definition ffOnRemoteReceivedFormatList (st : Bridge) : Bridge :=
  ffSimulateDelayedKeyEvents st.

(** [captureKeys(evt)]; [capturing] is the answer of [capturingInputs()]. *)
Definition captureKeys (capturing : bool) (evt : KeyboardEvent) (st : Bridge) : Bridge :=
  if capturing then
    if ffPostponeKeyboardEvents st then
      setDelayed (ffDelayedKeyboardEvents st ++ [evt]) st
    else if isFirefox (navigator st) && isPasteKeyboardEvent evt then
      setTimeout SimulateDelayedKeyEvents FF_LOCAL_CLIPBOARD_COPY_TIMEOUT
        (setDelayed [evt] (setPostpone true st))
    else keyboardEvent evt st
  else st.

(** Removing the oldest pending timeout of callback [cb]. *)
Fixpoint removeTimeout (cb : Callback) (l : list (Callback * nat))
  : option (list (Callback * nat)) :=
  match l with
  | [] => None
  | t :: r =>
      if callbackEqb (fst t) cb then Some r
      else match removeTimeout cb r with
           | Some r' => Some (t :: r')
           | None => None
           end
  end.

(** The oldest pending timeout of callback [cb] fires; nothing happens when
    none is pending. *)
Definition fire (cb : Callback) (st : Bridge) : Bridge :=
  match removeTimeout cb (timeouts st) with
  | None => st
  | Some l =>
      match cb with
      | WaitForRemoteClipboardDataSet => ffWaitForRemoteClipboardDataSet (setTimeouts l st)
      | SimulateDelayedKeyEvents => ffSimulateDelayedKeyEvents (setTimeouts l st)
      end
  end.

(** What releases buffered key events: the remote "format list received"
    signal, or a firing of the copy timeout. *)
Inductive Release : Type :=
| FormatListReceived
| CopyTimeoutElapsed.

Definition release (r : Release) (st : Bridge) : Bridge :=
  match r with
  | FormatListReceived => ffOnRemoteReceivedFormatList st
  | CopyTimeoutElapsed => fire SimulateDelayedKeyEvents st
  end.

(** Key events reaching [captureKeys] one after the other while inputs are
    captured. *)
Definition captureAll (evts : list KeyboardEvent) (st : Bridge) : Bridge :=
  fold_left (fun s evt => captureKeys true evt s) evts st.

(** The retry-wait chain after a gesture.  [arrivals i] is the payload the
    remote side delivers (through [ffOnRemoteClipboardChanged]) just before
    the timer firing number [i + 1], if any.  The chain is over when no
    wait timeout is pending; the result is the number of timer firings and
    the final state, [None] when [fuel] firings were not enough. *)
Fixpoint waitChain (fuel : nat) (arrivals : nat -> option ClipboardData)
         (fired : nat) (st : Bridge) : option (nat * Bridge) :=
  match removeTimeout WaitForRemoteClipboardDataSet (timeouts st) with
  | None => Some (fired, st)
  | Some _ =>
      match fuel with
      | O => None
      | S fuel' =>
          let st1 := match arrivals fired with
                     | Some data => ffOnRemoteClipboardChanged data st
                     | None => st
                     end in
          waitChain fuel' arrivals (S fired) (fire WaitForRemoteClipboardDataSet st1)
      end
  end.

(** ** The paste handler *)

(** One entry of [evt.clipboardData.items]: its [type], the string
    [getAsString] passes to its callback ([None] when the callback is never
    invoked) and the bytes of [getAsFile()] ([None] is [null]). *)
Record DataTransferItem : Type := mkTransfer {
  itemType : string;
  getAsString : option string;
  getAsFile : option (list byte)
}.

(** A paste [ClipboardEvent]; [None] is a null [clipboardData]. *)
Record ClipboardEvent : Type := mkPaste {
  clipboardData : option (list DataTransferItem)
}.

(** What handling a paste event does: whether [evt.preventDefault()] was
    called, and the payloads handed to
    [remoteDesktopService.onClipboardChanged] once the asynchronous reads
    have completed. *)
Record PasteOutcome : Type := mkOutcome {
  defaultPrevented : bool;
  forwarded : list ClipboardData
}.

Definition sendIfNotEmpty (cd : ClipboardData) : list ClipboardData :=
  if negb (isEmpty cd) then [cd] else [].

(** [for (var clipItem of evt.clipboardData.items)]. *)
Fixpoint pasteItems (its : list DataTransferItem) : list ClipboardData :=
  match its with
  | [] => []
  | clipItem :: rest =>
      let mime := itemType clipItem in
      if startsWith mime "text/" then
        match getAsString clipItem with
        | Some str => sendIfNotEmpty (addText mime str newClipboardData)
        | None => []
        end
      else if startsWith mime "image/" then
        match getAsFile clipItem with
        | None => pasteItems rest
        | Some file => sendIfNotEmpty (addBinary mime file newClipboardData)
        end
      else pasteItems rest
  end.

(** [ffOnPasteHandler(evt)]. *)
Definition ffOnPasteHandler (nav : Navigator) (evt : ClipboardEvent) : PasteOutcome :=
  mkOutcome true
    (if negb (isFirefox nav) then []
     else match clipboardData evt with
          | None => []
          | Some its => pasteItems its
          end).

(** ** Predicates used to state the properties *)

(** The values a pass collects: one entry per kind, in reading order, up
    to the first read that rejects. *)
Fixpoint observe (item : ReadItem) (kinds : list string) (acc : Rec JsValue) : Rec JsValue :=
  match kinds with
  | [] => acc
  | kind :: rest =>
      match getType item kind with
      | Some blob => observe item rest (recSet kind (readValue kind blob) acc)
      | None => acc
      end
  end.

(** For the kinds still to be visited, a value that differs from the
    client snapshot [c] is the value last received for that kind. *)
Definition passEchoes (received : Rec JsValue) (item : ReadItem)
           (kinds : list string) (c : Rec JsValue) : Prop :=
  forall kind blob,
    In kind kinds ->
    getType item kind = Some blob ->
    recGet c kind <> Some (readValue kind blob) ->
    recGet received kind = Some (readValue kind blob).

(** The observation of a tick only echoes the remote side. *)
Definition echoesRemote (st : Component) (item : ReadItem) : Prop :=
  passEchoes (lastReceivedClipboardData (vars st)) item (types item)
    (lastClientClipboardItems (vars st)).

(** The condition on one tick: it bears on the first clipboard entry of a
    read that resolved, the only values a tick compares. *)
Definition echoTick (read : ReadResult) (st : Component) : Prop :=
  match read with
  | ReadResolved (item :: _) => echoesRemote st item
  | _ => True
  end.


(** An entry the loop of the paste handler passes over: not text, and not
    an image with a file. *)
Definition passedOver (it : DataTransferItem) : bool :=
  negb (startsWith (itemType it) "text/")
  && (negb (startsWith (itemType it) "image/")
      || match getAsFile it with None => true | Some _ => false end).

(** The state of a chain that has just rescheduled itself with [r] retries
    left. *)
Definition waiting (r : nat) (st : Bridge) : Bridge :=
  setTimeout WaitForRemoteClipboardDataSet FF_REMOTE_CLIPBOARD_DATA_SET_RETRY_INTERVAL
    (setRetriesLeft r st).

(** ** Scenarios *)

(** A clipboard entry as the platform read returns it, given the blob of
    each of its kinds. *)
Definition readItemOf (r : Rec Blob) : ReadItem := mkReadItem (map fst r) (recGet r).

(** The component when [document.hasFocus()] has become [b]. *)
Definition withFocus (b : bool) (st : Component) : Component :=
  mkGate b (runWhenFocusedQueue st) (vars st).

(** The component as mounted, with and without document focus. *)
Definition mounted (focus : bool) : Component :=
  mkGate focus [] (mkSync [] [] None None false [] [] 0).

(** The remote clipboard payload [{ text/plain: "hello" }], and a local
    clipboard holding the same text. *)
Definition helloData : ClipboardData := mkData [mkItem "text/plain" (VString "hello")] false.

Definition helloRead : ReadResult :=
  ReadResolved [readItemOf [("text/plain", newBlob (VString "hello") "text/plain")]].

(** The state after the remote side has sent "hello" to the focused
    component. *)
Definition helloReceived : Component := onRemoteClipboardChanged helloData (mounted true).


(** A Safari without [navigator.clipboard], and a Firefox exposing the
    whole asynchronous clipboard API. *)
Definition safariWithoutClipboard : Navigator :=
  mkNavigator
    "Mozilla/5.0 (Macintosh; Intel Mac OS X 10_12_6) AppleWebKit/604.5.6 (KHTML, like Gecko) Version/11.0.3 Safari/604.5.6"
    None.

Definition firefoxWithClipboard : Navigator :=
  mkNavigator
    "Mozilla/5.0 (X11; Linux x86_64; rv:128.0) Gecko/20100101 Firefox/128.0"
    (Some (mkApi true true true)).

(** A Firefox with clipboard write access, before any key event. *)
Definition firefoxBridge : Bridge :=
  mkBridge firefoxWithClipboard None 0 false [] [] [] [].

(** ** Further handlers and drivers *)

(** The gate when [document.hasFocus()] has become [b]. *)
Definition focusChanged {A D : Type} (b : bool) (st : Gate A D) : Gate A D :=
  mkGate b (runWhenFocusedQueue st) (vars st).

(** Successive [runWhenWindowFocused(fn)] calls, each from a caller that
    catches what [fn] throws, as [onRemoteClipboardChanged] does. *)
Definition deferAll {A D : Type} (call : A -> Gate A D -> Completion A D)
           (fns : list A) (st : Gate A D) : Gate A D :=
  fold_left (fun s fn => completionState (runWhenWindowFocused call fn s)) fns st.

(** The loop of [clipboardDataToClipboardItemsRecord] over the items. *)
Definition itemsRecord (its : list ClipboardItem) : Rec JsValue :=
  fold_left (fun result item => recSet (mimeType item) (value item) result) its [].

(** The loop of [clipboardDataToRecord] over the items. *)
Definition blobsRecord (its : list ClipboardItem) : Rec Blob :=
  fold_left
    (fun result item => recSet (mimeType item) (newBlob (value item) (mimeType item)) result)
    its [].



(** The window [focus] event reaching the component: [focusEventHandler]
    runs on the queued closures, none of which queues another, so the
    length of the queue is fuel enough; an exception leaves the handler
    with the state reached. *)
Definition onFocus (st : Component) : Component :=
  match snd (focusEventHandler callPending (length (runWhenFocusedQueue st)) st) with
  | Some c => completionState c
  | None => st
  end.


(** What [onForceClipboardUpdate] asks of the remote desktop service:
    [onClipboardChanged(lastSentClipboardData)] or
    [onClipboardChangedEmpty()]. *)
Inductive ForceReply : Type :=
| ResendChanged (data : ClipboardData)
| SendEmpty.

(** [onForceClipboardUpdate()]; it changes no variable of the component. *)
Definition onForceClipboardUpdate (st : Component) : ForceReply :=
  match lastSentClipboardData (vars st) with
  | Some data => ResendChanged data
  | None => SendEmpty
  end.

(** [onDestroy]: [componentDestroyed = true]. *)
Definition onDestroy (st : Component) : Component :=
  let s := vars st in
  mkGate (hasFocus st) (runWhenFocusedQueue st)
    (mkSync (lastClientClipboardItems s) (lastReceivedClipboardData s)
       (lastSentClipboardData s) (lastClipboardMonitorLoopError s) true
       (clipboardWrites s) (clipboardChanged s) (monitorTimeouts s)).

(** What can happen to the component in standard mode. *)
Inductive SyncInput : Type :=
| MonitorTick (read : ReadResult)
| RemoteClipboardChanged (data : ClipboardData)
| FocusChanged (b : bool)
| FocusEvent
| Destroyed.

Definition syncStep (st : Component) (i : SyncInput) : Component :=
  match i with
  | MonitorTick read => onMonitorClipboard read st
  | RemoteClipboardChanged data => onRemoteClipboardChanged data st
  | FocusChanged b => withFocus b st
  | FocusEvent => onFocus st
  | Destroyed => onDestroy st
  end.

Definition syncRun (inputs : list SyncInput) (st : Component) : Component :=
  fold_left syncStep inputs st.

(** What can happen to the Firefox bridge: a key event reaching
    [captureKeys], the "format list received" signal, the oldest pending
    timeout of a callback firing, a remote clipboard change. *)
Inductive BridgeInput : Type :=
| KeyInput (capturing : bool) (evt : KeyboardEvent)
| FormatListInput
| TimeoutInput (cb : Callback)
| RemoteClipboardInput (data : ClipboardData).

Definition bridgeStep (st : Bridge) (i : BridgeInput) : Bridge :=
  match i with
  | KeyInput capturing evt => captureKeys capturing evt st
  | FormatListInput => ffOnRemoteReceivedFormatList st
  | TimeoutInput cb => fire cb st
  | RemoteClipboardInput data => ffOnRemoteClipboardChanged data st
  end.

Definition bridgeRun (inputs : list BridgeInput) (st : Bridge) : Bridge :=
  fold_left bridgeStep inputs st.

(** The key events of a run that [captureKeys] handled, in arrival order. *)
Fixpoint capturedKeys (inputs : list BridgeInput) : list KeyboardEvent :=
  match inputs with
  | [] => []
  | KeyInput true evt :: rest => evt :: capturedKeys rest
  | _ :: rest => capturedKeys rest
  end.

(** The field of a [MouseEvent] the component looks at. *)
Record MouseEvent : Type := mkMouse {
  button : Z
}.

(** The variable of the mouse handlers, with the logs of their effects:
    the [canvas.focus()] and [screenViewer.blur()] calls and the arguments
    of [remoteDesktopService.mouseButtonState]. *)
Record Pointer : Type := mkPointer {
  ffCnavasFocused : bool;
  canvasFocusCalls : nat;
  screenViewerBlurCalls : nat;
  mouseButtonStates : list (MouseEvent * bool * bool)
}.

(** [setMouseButtonState(state, isDown)]. *)
Definition setMouseButtonState (nav : Navigator) (state : MouseEvent) (isDown : bool)
           (st : Pointer) : Pointer :=
  let st1 :=
    if isFirefox nav then
      if isDown && (button state =? 0)%Z && negb (ffCnavasFocused st) then
        mkPointer true (S (canvasFocusCalls st)) (screenViewerBlurCalls st)
          (mouseButtonStates st)
      else
        mkPointer (ffCnavasFocused st) (canvasFocusCalls st)
          (S (screenViewerBlurCalls st)) (mouseButtonStates st)
    else st in
  mkPointer (ffCnavasFocused st1) (canvasFocusCalls st1) (screenViewerBlurCalls st1)
    (mouseButtonStates st1 ++ [(state, isDown, true)]).

(** Mouse button events handled one after the other. *)
Definition mouseRun (nav : Navigator) (evts : list (MouseEvent * bool)) (st : Pointer) : Pointer :=
  fold_left (fun s e => setMouseButtonState nav (fst e) (snd e) s) evts st.

(** A snapshot entry [buildClipboardData] keeps: a text kind holding a
    string or an image kind holding bytes. *)
Definition supportedEntry (kv : string * JsValue) : bool :=
  match snd kv with
  | VString _ => startsWith (fst kv) "text/"
  | VBytes _ => startsWith (fst kv) "image/"
  end.


(** The number of pending timeouts of the wait callback. *)
Definition pendingWaits (l : list (Callback * nat)) : nat :=
  length (filter (fun t => callbackEqb (fst t) WaitForRemoteClipboardDataSet) l).

(** The keys of a record after [r[k] = v]. *)
Definition addKey (k : string) (ks : list string) : list string :=
  if existsb (fun k' => String.eqb k' k) ks then ks else ks ++ [k].

(** Whether [item.getType(kind)] resolves. *)
Definition resolved (item : ReadItem) (kind : string) : bool :=
  match getType item kind with Some _ => true | None => false end.

(** A timeout of the key-replay callback. *)
Definition isSimulateTimeout (t : Callback * nat) : bool :=
  callbackEqb (fst t) SimulateDelayedKeyEvents.

(** * Properties *)

(** ** FocusGate *)

Section FocusGateFacts.

Variables (A D : Type).
Variable call : A -> Gate A D -> Completion A D.

Lemma withQueue_queue (q : list A) (st : Gate A D) :
  runWhenFocusedQueue (withQueue q st) = q.
Proof. reflexivity. Qed.

(** With an empty queue the handler returns at once, whatever the fuel. *)
Lemma focusEventHandler_empty (fuel : nat) (st : Gate A D) :
  runWhenFocusedQueue st = [] ->
  focusEventHandler call fuel st = ([], Some (Returned st)).
Proof. intros Hq. destruct fuel; simpl; rewrite Hq; reflexivity. Qed.

(** One turn of the loop when the head closure returns: the handler goes
    on with the queue as that closure left it. *)
Lemma focusEventHandler_step (fuel : nat) (st st1 : Gate A D) (fn : A) (rest : list A) :
  runWhenFocusedQueue st = fn :: rest ->
  call fn (withQueue rest st) = Returned st1 ->
  focusEventHandler call (S fuel) st =
    (fn :: fst (focusEventHandler call fuel st1), snd (focusEventHandler call fuel st1)).
Proof. intros Hq Hc. simpl. rewrite Hq, Hc. reflexivity. Qed.

(** One turn of the loop when the head closure throws. *)
Lemma focusEventHandler_throw (fuel : nat) (st st1 : Gate A D) (fn : A)
      (rest : list A) (e : string) :
  runWhenFocusedQueue st = fn :: rest ->
  call fn (withQueue rest st) = Threw e st1 ->
  focusEventHandler call (S fuel) st = ([fn], Some (Threw e st1)).
Proof. intros Hq Hc. simpl. rewrite Hq, Hc. reflexivity. Qed.

(** An inert prefix of the queue is invoked in order, after which the
    handler continues from a state whose queue is the rest. *)
Lemma focusEventHandler_inert_prefix (pre post : list A) :
  forall st,
    runWhenFocusedQueue st = pre ++ post ->
    (forall g, In g pre -> inert call g) ->
    exists mid,
      runWhenFocusedQueue mid = post /\
      forall k,
        focusEventHandler call (length pre + k) st =
          (pre ++ fst (focusEventHandler call k mid),
           snd (focusEventHandler call k mid)).
Proof.
  induction pre as [|g pre IH]; intros st Hq Hin.
  - exists st. split; [exact Hq|]. intros k. simpl.
    destruct (focusEventHandler call k st); reflexivity.
  - simpl in Hq.
    destruct (Hin g (or_introl eq_refl) (withQueue (pre ++ post) st)) as (s' & Hc & Hs').
    rewrite withQueue_queue in Hs'.
    destruct (IH s' Hs' (fun h Hh => Hin h (or_intror Hh))) as (mid & Hmid & Hrun).
    exists mid. split; [exact Hmid|]. intros k.
    change (length (g :: pre) + k) with (S (length pre + k)).
    rewrite (focusEventHandler_step _ _ _ _ _ Hq Hc), Hrun. reflexivity.
Qed.

(** The handler runs out of fuel only after invoking [fuel] closures. *)
Lemma focusEventHandler_out_of_fuel (fuel : nat) :
  forall st tr,
    focusEventHandler call fuel st = (tr, None) -> length tr = fuel.
Proof.
  induction fuel as [|fuel IH]; intros st tr; simpl.
  - destruct (runWhenFocusedQueue st); intros H; inversion H; reflexivity.
  - destruct (runWhenFocusedQueue st) as [|fn rest]; [intros H; inversion H|].
    destruct (call fn (withQueue rest st)) as [st1|e st1]; [|intros H; inversion H].
    destruct (focusEventHandler call fuel st1) as [tr1 r1] eqn:E. simpl.
    intros H. inversion H; subst. simpl. f_equal. eapply IH. exact E.
Qed.

(** X1: when closures only ever append to the queue, a pass that returns has
    invoked everything that was queued when it started, in order, before
    anything queued later, and leaves the queue empty. *)
Lemma focusEventHandler_append_only (fuel : nat) :
  (forall g, appendsOnly call g) ->
  forall st tr st',
    focusEventHandler call fuel st = (tr, Some (Returned st')) ->
    runWhenFocusedQueue st' = [] /\
    exists later, tr = runWhenFocusedQueue st ++ later.
Proof.
  intros Happ. induction fuel as [|fuel IH]; intros st tr st'; simpl.
  - destruct (runWhenFocusedQueue st) eqn:Hq; intros H; inversion H; subst.
    split; [exact Hq|]. exists []. reflexivity.
  - destruct (runWhenFocusedQueue st) as [|fn rest] eqn:Hq.
    + intros H; inversion H; subst. split; [exact Hq|]. exists []. reflexivity.
    + destruct (Happ fn (withQueue rest st)) as (l & Hl).
      rewrite withQueue_queue in Hl.
      destruct (call fn (withQueue rest st)) as [st1|e st1]; [|intros H; inversion H].
      simpl in Hl.
      destruct (focusEventHandler call fuel st1) as [tr1 r1] eqn:E. simpl.
      intros H. inversion H; subst.
      destruct (IH _ _ _ E) as (Hempty & later & Htr).
      split; [exact Hempty|]. exists (l ++ later).
      rewrite Htr, Hl, <- app_assoc. reflexivity.
Qed.

(** C1 (as amended): a focus-gain event invokes the queued actions in FIFO
    order, removing each before it is invoked.  When every action returns,
    each is invoked exactly once and the queue ends empty.  When an action
    throws, the handler stops there: the actions before it and the failing
    one have been invoked once, the failing one is not re-queued, and the
    actions behind it stay queued, in order, uninvoked. *)
Theorem focusEventHandler_fifo_until_throw (pre post : list A) (st : Gate A D) (fuel : nat) :
  runWhenFocusedQueue st = pre ++ post ->
  (forall g, In g pre -> inert call g) ->
  length pre < fuel ->
  (post = [] ->
   exists st',
     focusEventHandler call fuel st = (pre, Some (Returned st')) /\
     runWhenFocusedQueue st' = []) /\
  (forall fn rest,
     post = fn :: rest ->
     alwaysThrows call fn ->
     exists e st',
       focusEventHandler call fuel st = (pre ++ [fn], Some (Threw e st')) /\
       runWhenFocusedQueue st' = rest).
Proof.
  intros Hq Hin Hfuel.
  destruct (focusEventHandler_inert_prefix pre post st Hq Hin) as (mid & Hmid & Hrun).
  replace fuel with (length pre + S (fuel - S (length pre))) by lia.
  rewrite Hrun. split.
  - intros ->. exists mid.
    rewrite (focusEventHandler_empty _ _ Hmid). simpl.
    rewrite app_nil_r. split; [reflexivity | exact Hmid].
  - intros fn rest -> Hthrow.
    destruct (Hthrow (withQueue rest mid)) as (e & s' & Hc & Hs').
    rewrite withQueue_queue in Hs'.
    exists e, s'.
    rewrite (focusEventHandler_throw _ _ _ _ _ _ Hmid Hc). simpl.
    split; [reflexivity | exact Hs'].
Qed.

(** C9: the handler re-reads the queue after every action.  When the
    action at the head appends [added] to the queue while the handler is
    draining, the same pass goes on to invoke what was already queued and
    then [added], and returns only with the queue empty. *)
Theorem focusEventHandler_runs_appended (fn : A) (rest added : list A)
        (st st1 : Gate A D) (fuel : nat) :
  runWhenFocusedQueue st = fn :: rest ->
  call fn (withQueue rest st) = Returned st1 ->
  runWhenFocusedQueue st1 = rest ++ added ->
  (forall g, In g (rest ++ added) -> inert call g) ->
  length (rest ++ added) < fuel ->
  exists st',
    focusEventHandler call fuel st = (fn :: rest ++ added, Some (Returned st')) /\
    runWhenFocusedQueue st' = [].
Proof.
  intros Hq Hc Hq1 Hin Hfuel.
  destruct fuel as [|fuel]; [lia|].
  rewrite (focusEventHandler_step _ _ _ _ _ Hq Hc).
  assert (Hq1' : runWhenFocusedQueue st1 = (rest ++ added) ++ []) by
    (rewrite app_nil_r; exact Hq1).
  destruct (focusEventHandler_inert_prefix _ _ st1 Hq1' Hin) as (mid & Hmid & Hrun).
  replace fuel with (length (rest ++ added) + (fuel - length (rest ++ added))) by lia.
  rewrite Hrun, (focusEventHandler_empty _ _ Hmid). simpl.
  rewrite app_nil_r. exists mid. split; [reflexivity | exact Hmid].
Qed.

End FocusGateFacts.

Lemma inert_Mark (n : nat) : inert callProbe (Mark n).
Proof. intros s. eexists. split; reflexivity. Qed.

Lemma alwaysThrows_Raise (msg : string) : alwaysThrows callProbe (Raise msg).
Proof. intros s. exists msg, s. split; reflexivity. Qed.

(** C1, counterexample: with [Mark 1], a throwing action and [Mark 2]
    queued, one focus-gain event invokes the first two only; the handler
    ends by the exception, and [Mark 2] is still queued and has left no
    mark. *)
Lemma focusEventHandler_halts_on_throw :
  focusEventHandler callProbe 10
    (mkGate true [Mark 1; Raise "boom"; Mark 2] [])
  = ([Mark 1; Raise "boom"],
     Some (Threw "boom" (mkGate true [Mark 2] [1]))).
Proof. reflexivity. Qed.

Lemma focusEventHandler_fifo_until_throw_witness :
  exists e st',
    focusEventHandler callProbe 5 (mkGate true [Mark 1; Mark 2; Raise "boom"; Mark 3] [])
    = ([Mark 1; Mark 2] ++ [Raise "boom"], Some (Threw e st')) /\
    runWhenFocusedQueue st' = [Mark 3].
Proof.
  refine (proj2 (focusEventHandler_fifo_until_throw Probe (list nat) callProbe
                   [Mark 1; Mark 2] [Raise "boom"; Mark 3]
                   (mkGate true [Mark 1; Mark 2; Raise "boom"; Mark 3] []) 5
                   eq_refl _ _) (Raise "boom") [Mark 3] eq_refl (alwaysThrows_Raise "boom")).
  - intros g [<-|[<-|[]]]; apply inert_Mark.
  - simpl. lia.
Defined.

Lemma focusEventHandler_runs_appended_witness :
  exists st',
    focusEventHandler callProbe 4 (mkGate false [Defer (Mark 7); Mark 1] [])
    = (Defer (Mark 7) :: [Mark 1] ++ [Mark 7], Some (Returned st')) /\
    runWhenFocusedQueue st' = [].
Proof.
  refine (focusEventHandler_runs_appended Probe (list nat) callProbe
            (Defer (Mark 7)) [Mark 1] [Mark 7]
            (mkGate false [Defer (Mark 7); Mark 1] [])
            (mkGate false [Mark 1; Mark 7] []) 4 eq_refl eq_refl eq_refl _ _).
  - intros g [<-|[<-|[]]]; apply inert_Mark.
  - simpl. lia.
Defined.

(** ** Records and the equality used for diffing *)

Lemma recGet_recSet_same {V : Type} (k : string) (v : V) (r : Rec V) :
  recGet (recSet k v r) k = Some v.
Proof.
  induction r as [|[k' v'] r IH]; simpl.
  - rewrite String.eqb_refl. reflexivity.
  - destruct (String.eqb k' k) eqn:E; simpl; rewrite E; [reflexivity | exact IH].
Qed.

Lemma recGet_recSet_other {V : Type} (k k' : string) (v : V) (r : Rec V) :
  k <> k' -> recGet (recSet k v r) k' = recGet r k'.
Proof.
  intros Hne. induction r as [|[k0 v0] r IH]; simpl.
  - destruct (String.eqb k k') eqn:E; [|reflexivity].
    apply String.eqb_eq in E. contradiction.
  - destruct (String.eqb k0 k) eqn:E; simpl.
    + apply String.eqb_eq in E. subst k0.
      destruct (String.eqb k k') eqn:E'; [|reflexivity].
      apply String.eqb_eq in E'. contradiction.
    + destruct (String.eqb k0 k'); [reflexivity | exact IH].
Qed.

(** The byte comparison is equality of the two arrays: same length and the
    same byte at every index. *)
Lemma bytesEqual_eq (a b : list byte) : bytesEqual a b = true <-> a = b.
Proof.
  unfold bytesEqual. split.
  - revert b. induction a as [|x a IH]; intros [|y b]; simpl; intros H;
      try reflexivity; try discriminate.
    apply andb_true_iff in H. destruct H as [Hlen H].
    apply andb_true_iff in H. destruct H as [Hxy Hrest].
    apply Byte.byte_dec_bl in Hxy. subst y. f_equal.
    apply IH. rewrite Hlen, Hrest. reflexivity.
  - intros <-. induction a as [|x a IH]; simpl; [reflexivity|].
    apply andb_true_iff in IH. destruct IH as [Hlen Hall].
    rewrite Hlen, Hall, (Byte.byte_dec_lb (x:=x) (y:=x) eq_refl). reflexivity.
Qed.

(** Against a freshly read value, [is_equal] is equality of clipboard
    values: string equality for a text kind, byte-wise equality for a
    binary kind, and a text value never equals a binary one. *)
Lemma is_equal_spec (kind : string) (blob : Blob) (a : option JsValue) :
  is_equal (startsWith kind "text/") a (Some (readValue kind blob)) = true
  <-> a = Some (readValue kind blob).
Proof.
  unfold readValue, is_equal. destruct (startsWith kind "text/").
  - destruct a as [[x|x]|]; split; intros H; try discriminate.
    + apply String.eqb_eq in H. subst. reflexivity.
    + inversion H; subst. apply String.eqb_refl.
  - destruct a as [[x|x]|]; split; intros H; try discriminate.
    + apply bytesEqual_eq in H. subst. reflexivity.
    + inversion H; subst. apply bytesEqual_eq. reflexivity.
Qed.

Lemma is_equal_false (kind : string) (blob : Blob) (a : option JsValue) :
  is_equal (startsWith kind "text/") a (Some (readValue kind blob)) = false
  <-> a <> Some (readValue kind blob).
Proof.
  rewrite <- is_equal_spec.
  destruct (is_equal (startsWith kind "text/") a (Some (readValue kind blob)));
    split; intros H; try reflexivity; try discriminate; congruence.
Qed.

(** ** The polling loop *)

(** What one iteration does to the client snapshot: nothing, or the entry
    of its kind is overwritten with the value last received for it. *)
Lemma monitorKind_client (item : ReadItem) (received : Rec JsValue)
      (kind : string) (p p1 : Pass) :
  monitorKind item received kind p = Some p1 ->
  client p1 = client p \/
  exists r, recGet received kind = Some r /\ client p1 = recSet kind r (client p).
Proof.
  unfold monitorKind. destruct (getType item kind) as [blob|]; [|discriminate].
  destruct (negb _).
  - destruct (is_equal _ (recGet received kind) _).
    + destruct (recGet received kind) as [r|] eqn:Hr; intros H; inversion H; subst; simpl.
      * right. exists r. split; reflexivity.
      * left. reflexivity.
    + intros H; inversion H; subst. left. reflexivity.
  - intros H; inversion H; subst. left. reflexivity.
Qed.

Lemma monitorKind_lookup (item : ReadItem) (received : Rec JsValue)
      (kind : string) (p p1 : Pass) (k : string) :
  monitorKind item received kind p = Some p1 ->
  recGet (client p1) k = recGet (client p) k \/
  (k = kind /\ recGet (client p1) k = recGet received k).
Proof.
  intros H. destruct (monitorKind_client _ _ _ _ _ H) as [->|(r & Hr & ->)].
  - left. reflexivity.
  - destruct (string_dec kind k) as [<-|Hne].
    + right. split; [reflexivity|]. rewrite recGet_recSet_same, Hr. reflexivity.
    + left. apply recGet_recSet_other. exact Hne.
Qed.

(** Over the whole loop every entry of the client snapshot is either left
    alone or overwritten with the value last received for its kind. *)
Lemma monitorKinds_lookup (item : ReadItem) (received : Rec JsValue) (kinds : list string) :
  forall p k,
    recGet (client (fst (monitorKinds item received kinds p))) k = recGet (client p) k \/
    (In k kinds /\
     recGet (client (fst (monitorKinds item received kinds p))) k = recGet received k).
Proof.
  induction kinds as [|kind rest IH]; intros p k; simpl.
  - left. reflexivity.
  - destruct (monitorKind item received kind p) as [p1|] eqn:E; simpl.
    + destruct (IH p1 k) as [H|[Hin H]].
      * rewrite H. destruct (monitorKind_lookup _ _ _ _ _ k E) as [H1|[-> H1]].
        -- left. exact H1.
        -- right. split; [left; reflexivity | exact H1].
      * right. split; [right; exact Hin | exact H].
    + left. reflexivity.
Qed.

(** An iteration on an echoing observation flags nothing, and what is left
    of the observation still echoes. *)
Lemma monitorKind_echo (item : ReadItem) (received : Rec JsValue)
      (kind : string) (rest : list string) (p p1 : Pass) :
  passEchoes received item (kind :: rest) (client p) ->
  monitorKind item received kind p = Some p1 ->
  sameValue p1 = sameValue p /\ passEchoes received item rest (client p1).
Proof.
  intros Hecho H.
  assert (Hrest : passEchoes received item rest (client p))
    by (intros k b Hin; apply Hecho; right; exact Hin).
  pose proof H as Hk. unfold monitorKind in Hk.
  destruct (getType item kind) as [blob|] eqn:Hget; [|discriminate].
  destruct (is_equal _ (recGet (client p) kind) _) eqn:Hprev; simpl in Hk.
  - inversion Hk; subst; simpl. split; [reflexivity | exact Hrest].
  - apply is_equal_false in Hprev.
    pose proof (Hecho kind blob (or_introl eq_refl) Hget Hprev) as Hrecv.
    rewrite Hrecv in Hk.
    rewrite (proj2 (is_equal_spec kind blob (Some (readValue kind blob))) eq_refl) in Hk.
    inversion Hk; subst; simpl. split; [reflexivity|].
    intros k b Hin Hgetk Hne.
    destruct (string_dec kind k) as [<-|Hkk].
    + rewrite recGet_recSet_same in Hne. rewrite Hgetk in Hget.
      inversion Hget; subst. contradiction.
    + rewrite (recGet_recSet_other _ _ _ _ Hkk) in Hne.
      exact (Hrest k b Hin Hgetk Hne).
Qed.

(** On an echoing observation the loop never clears [sameValue]. *)
Lemma monitorKinds_echo (item : ReadItem) (received : Rec JsValue) (kinds : list string) :
  forall p,
    passEchoes received item kinds (client p) ->
    sameValue (fst (monitorKinds item received kinds p)) = sameValue p.
Proof.
  induction kinds as [|kind rest IH]; intros p Hecho; simpl; [reflexivity|].
  destruct (monitorKind item received kind p) as [p1|] eqn:E; simpl; [|reflexivity].
  destruct (monitorKind_echo _ _ _ _ _ _ Hecho E) as [Hs Hrest].
  rewrite (IH p1 Hrest). exact Hs.
Qed.

(** When every [getType] resolves the loop ends without an error. *)
Lemma monitorKinds_resolves (item : ReadItem) (received : Rec JsValue) (kinds : list string) :
  (forall k, In k kinds -> getType item k <> None) ->
  forall p, snd (monitorKinds item received kinds p) = None.
Proof.
  induction kinds as [|kind rest IH]; intros Hres p; simpl; [reflexivity|].
  destruct (monitorKind item received kind p) as [p1|] eqn:E.
  - apply IH. intros k Hin. apply Hres. right. exact Hin.
  - exfalso. unfold monitorKind in E.
    destruct (getType item kind) eqn:Hget.
    + destruct (negb _); [destruct (is_equal _ (recGet received kind) _);
        [destruct (recGet received kind)|]|]; discriminate.
    + exact (Hres kind (or_introl eq_refl) Hget).
Qed.


Lemma monitorKinds_values (item : ReadItem) (received : Rec JsValue) (kinds : list string) :
  forall p, values (fst (monitorKinds item received kinds p)) = observe item kinds (values p).
Proof.
  induction kinds as [|kind rest IH]; intros p; simpl; [reflexivity|].
  unfold monitorKind.
  destruct (getType item kind) as [blob|]; [|reflexivity].
  destruct (negb _); [destruct (is_equal _ (recGet received kind) _);
    [destruct (recGet received kind)|]|]; rewrite IH; reflexivity.
Qed.

Lemma monitorFinally_vars (st : Component) :
  lastClientClipboardItems (vars (monitorFinally st)) = lastClientClipboardItems (vars st) /\
  lastReceivedClipboardData (vars (monitorFinally st)) = lastReceivedClipboardData (vars st) /\
  clipboardChanged (vars (monitorFinally st)) = clipboardChanged (vars st) /\
  hasFocus (monitorFinally st) = hasFocus st.
Proof.
  unfold monitorFinally. destruct (componentDestroyed (vars st)); simpl; repeat split.
Qed.

(** A tick on an echoing observation hands nothing to the remote module. *)
Lemma onMonitorClipboard_quiet (read : ReadResult) (st : Component) :
  echoTick read st ->
  clipboardChanged (vars (onMonitorClipboard read st)) = clipboardChanged (vars st).
Proof.
  intros Hecho. unfold onMonitorClipboard.
  destruct (monitorFinally_vars (monitorTry read st)) as (_ & _ & -> & _).
  unfold monitorTry. destruct (hasFocus st); simpl; [|reflexivity].
  destruct read as [err|[|item more]]; simpl; try reflexivity.
  destruct (existsb _ (types item)); simpl; [|reflexivity].
  simpl in Hecho. unfold echoesRemote in Hecho.
  pose proof (monitorKinds_echo item (lastReceivedClipboardData (vars st)) (types item)
                (mkPass (lastClientClipboardItems (vars st)) [] true) Hecho) as Hsame.
  simpl in Hsame.
  destruct (snd (monitorKinds _ _ _ _)); simpl; [reflexivity|].
  rewrite Hsame. reflexivity.
Qed.


Lemma monitorRun_app (pre post : list ReadResult) (st : Component) :
  monitorRun (pre ++ post) st = monitorRun post (monitorRun pre st).
Proof. unfold monitorRun. apply fold_left_app. Qed.



(** ** The inbound path of the standard mode *)




(** ** The polling loop of the standard mode *)




(** The spec's scenario, continued: after "hello" was received and observed
    locally, a local change to "world" is sent out once and becomes the
    last-sent payload. *)
Example monitor_sends_world :
  let st := monitorRun
              [helloRead;
               ReadResolved [readItemOf [("text/plain", newBlob (VString "world") "text/plain")]]]
              helloReceived in
  clipboardChanged (vars st) = [mkData [mkItem "text/plain" (VString "world")] false] /\
  lastSentClipboardData (vars st) = Some (mkData [mkItem "text/plain" (VString "world")] false) /\
  lastClientClipboardItems (vars st) = [("text/plain", VString "world")].
Proof. repeat split. Qed.



(** ** Capability detection *)

(** C5, counterexample: a browser that is not Firefox and has no
    [navigator.clipboard] lacks the asynchronous API, yet no handler is
    registered for it: the mode is unsupported, not degraded. *)
Lemma initClipboard_unsupported_without_api :
  lacksAsyncClipboard safariWithoutClipboard = true /\
  isFirefox safariWithoutClipboard = false /\
  initClipboard safariWithoutClipboard = mkRegistration false None false false false /\
  clipboardMode (initClipboard safariWithoutClipboard) = Unsupported.
Proof. repeat split. Qed.

(** C5 (as amended): detection yields exactly one of the three modes, as a
    function of the browser alone.  The mode is degraded exactly for a user
    agent naming Firefox, whatever clipboard API it exposes; any other
    browser gets the standard mode when [clipboard.read] and
    [clipboard.write] both exist and is unsupported when the asynchronous
    API is lacking. *)
Theorem initClipboard_mode (nav : Navigator) :
  clipboardMode (initClipboard nav)
  = if isFirefox nav then Degraded
    else if lacksAsyncClipboard nav then Unsupported
         else Standard.
Proof.
  unfold initClipboard, lacksAsyncClipboard.
  destruct (isFirefox nav); simpl; [reflexivity|].
  destruct (clipboard nav) as [api|]; simpl; [|reflexivity].
  destruct (hasRead api && hasWrite api); reflexivity.
Qed.

(** A Firefox exposing the whole asynchronous API is still degraded. *)
Example initClipboard_firefox_degraded :
  lacksAsyncClipboard firefoxWithClipboard = false /\
  clipboardMode (initClipboard firefoxWithClipboard) = Degraded.
Proof. repeat split. Qed.

(** ** The paste handler of the degraded mode *)

Lemma sendIfNotEmpty_addText (mime str : string) :
  sendIfNotEmpty (addText mime str newClipboardData)
  = [mkData [mkItem mime (VString str)] false].
Proof. reflexivity. Qed.

Lemma sendIfNotEmpty_addBinary (mime : string) (file : list byte) :
  sendIfNotEmpty (addBinary mime file newClipboardData)
  = [mkData [mkItem mime (VBytes file)] false].
Proof. reflexivity. Qed.

Lemma pasteItems_at_most_one (its : list DataTransferItem) : length (pasteItems its) <= 1.
Proof.
  induction its as [|it rest IH]; simpl; [lia|].
  destruct (startsWith (itemType it) "text/").
  - destruct (getAsString it); simpl; lia.
  - destruct (startsWith (itemType it) "image/"); [|exact IH].
    destruct (getAsFile it); [simpl; lia | exact IH].
Qed.

Lemma pasteItems_passedOver (pre rest : list DataTransferItem) :
  forallb passedOver pre = true -> pasteItems (pre ++ rest) = pasteItems rest.
Proof.
  induction pre as [|it pre IH]; intros H; simpl in *; [reflexivity|].
  apply andb_true_iff in H. destruct H as [Hit Hpre].
  unfold passedOver in Hit. apply andb_true_iff in Hit. destruct Hit as [Ht Hi].
  apply negb_true_iff in Ht. rewrite Ht.
  destruct (startsWith (itemType it) "image/"); simpl in Hi; [|exact (IH Hpre)].
  destruct (getAsFile it); [discriminate | exact (IH Hpre)].
Qed.

(** C6, counterexample: a paste whose payload lists an image file before a
    text item forwards the image, although a text item exists on the
    payload, and the text item is not sent. *)
Lemma ffOnPasteHandler_image_before_text :
  ffOnPasteHandler firefoxWithClipboard
    (mkPaste (Some [mkTransfer "image/png" None (Some [x89; x50]%byte);
                    mkTransfer "text/plain" (Some "abc") None]))
  = mkOutcome true [mkData [mkItem "image/png" (VBytes [x89; x50]%byte)] false].
Proof. reflexivity. Qed.

(** Every payload either consists of items that are all passed over, or
    has a first item that is not: a text item, or an image item with a
    file. *)
Lemma passedOver_cases (its : list DataTransferItem) :
  forallb passedOver its = true \/
  exists pre it post,
    its = pre ++ it :: post /\
    forallb passedOver pre = true /\
    (startsWith (itemType it) "text/" = true \/
     (startsWith (itemType it) "text/" = false /\
      startsWith (itemType it) "image/" = true /\
      exists file, getAsFile it = Some file)).
Proof.
  induction its as [|it rest IH]; [left; reflexivity|].
  destruct (passedOver it) eqn:E.
  - destruct IH as [Hall|(pre & it' & post & Hits & Hpre & Hit)].
    + left. simpl. rewrite E, Hall. reflexivity.
    + right. exists (it :: pre), it', post. split; [simpl; rewrite Hits; reflexivity|].
      split; [simpl; rewrite E, Hpre; reflexivity | exact Hit].
  - right. exists [], it, rest. split; [reflexivity|]. split; [reflexivity|].
    unfold passedOver in E.
    destruct (startsWith (itemType it) "text/"); [left; reflexivity|].
    right. split; [reflexivity|]. simpl in E.
    destruct (startsWith (itemType it) "image/"); simpl in E; [|discriminate].
    destruct (getAsFile it) as [file|]; [|discriminate].
    split; [reflexivity|]. exists file. reflexivity.
Qed.

(** C6 (as amended): a paste event handled in degraded mode has its default
    handling prevented and forwards at most one item.  Only the first item
    in payload order that is a text item or an image item with a file is
    looked at; no later item is ever forwarded.  When that item is a text
    item, the string passed to its [getAsString] callback is sent as a
    single-entry clipboard-data object, and nothing at all is forwarded
    when that callback is never invoked.  When it is an image item, its
    bytes are sent likewise, which happens only when no text item precedes
    it.  When every item is passed over, when the event carries no
    clipboard data, or when the browser is not Firefox, nothing is
    forwarded. *)
Theorem ffOnPasteHandler_first_match (nav : Navigator) (evt : ClipboardEvent) :
  defaultPrevented (ffOnPasteHandler nav evt) = true /\
  length (forwarded (ffOnPasteHandler nav evt)) <= 1 /\
  (isFirefox nav = true ->
   forall pre it post,
     clipboardData evt = Some (pre ++ it :: post) ->
     forallb passedOver pre = true ->
     (startsWith (itemType it) "text/" = true ->
      forall str, getAsString it = Some str ->
        forwarded (ffOnPasteHandler nav evt)
        = [mkData [mkItem (itemType it) (VString str)] false]) /\
     (startsWith (itemType it) "text/" = false ->
      startsWith (itemType it) "image/" = true ->
      forall file, getAsFile it = Some file ->
        forwarded (ffOnPasteHandler nav evt)
        = [mkData [mkItem (itemType it) (VBytes file)] false] /\
        forallb (fun p => negb (startsWith (itemType p) "text/")) pre = true) /\
     (startsWith (itemType it) "text/" = true ->
      getAsString it = None ->
      forwarded (ffOnPasteHandler nav evt) = [])) /\
  (forall its,
     clipboardData evt = Some its ->
     forallb passedOver its = true ->
     forwarded (ffOnPasteHandler nav evt) = []) /\
  (clipboardData evt = None -> forwarded (ffOnPasteHandler nav evt) = []) /\
  (isFirefox nav = false -> forwarded (ffOnPasteHandler nav evt) = []).
Proof.
  unfold ffOnPasteHandler. simpl. split; [reflexivity|]. split; [|split; [|split; [|split]]].
  - destruct (negb (isFirefox nav)); simpl; [lia|].
    destruct (clipboardData evt); [apply pasteItems_at_most_one | simpl; lia].
  - intros Hff pre it post Hdata Hpre. rewrite Hff, Hdata. simpl.
    rewrite (pasteItems_passedOver pre (it :: post) Hpre). simpl.
    split; [|split; [|intros Htext Hnone; rewrite Htext, Hnone; reflexivity]].
    + intros Htext str Hstr. rewrite Htext, Hstr. reflexivity.
    + intros Htext Himage file Hfile. rewrite Htext, Himage, Hfile.
      split; [reflexivity|].
      clear -Hpre. induction pre as [|p pre IH]; simpl in *; [reflexivity|].
      apply andb_true_iff in Hpre. destruct Hpre as [Hp Hpre].
      unfold passedOver in Hp. apply andb_true_iff in Hp. destruct Hp as [Hp _].
      rewrite Hp. exact (IH Hpre).
  - intros its Hdata Hall. rewrite Hdata.
    destruct (negb (isFirefox nav)); [reflexivity|].
    rewrite <- (app_nil_r its). rewrite (pasteItems_passedOver its [] Hall). reflexivity.
  - intros Hnone. rewrite Hnone. destruct (negb (isFirefox nav)); reflexivity.
  - intros Hff. rewrite Hff. reflexivity.
Qed.

Lemma ffOnPasteHandler_first_match_witness :
  forwarded (ffOnPasteHandler firefoxWithClipboard
               (mkPaste (Some ([mkTransfer "application/x-moz-file" None None]
                               ++ mkTransfer "text/plain" (Some "abc") None
                               :: [mkTransfer "text/html" (Some "<i>abc</i>") None]))))
  = [mkData [mkItem "text/plain" (VString "abc")] false].
Proof.
  exact (proj1 (proj1 (proj2 (proj2
           (ffOnPasteHandler_first_match firefoxWithClipboard
              (mkPaste (Some ([mkTransfer "application/x-moz-file" None None]
                              ++ mkTransfer "text/plain" (Some "abc") None
                              :: [mkTransfer "text/html" (Some "<i>abc</i>") None]))))))
           eq_refl
           [mkTransfer "application/x-moz-file" None None]
           (mkTransfer "text/plain" (Some "abc") None)
           [mkTransfer "text/html" (Some "<i>abc</i>") None]
           eq_refl eq_refl) eq_refl "abc" eq_refl).
Defined.

(** ** The Firefox bridge: frame lemmas *)

Lemma writeText_frame (v : string) (st : Bridge) :
  navigator (writeText v st) = navigator st /\
  ffRemoteClipboardData (writeText v st) = ffRemoteClipboardData st /\
  ffRemoteClipboardDataRetriesLeft (writeText v st) = ffRemoteClipboardDataRetriesLeft st /\
  ffPostponeKeyboardEvents (writeText v st) = ffPostponeKeyboardEvents st /\
  ffDelayedKeyboardEvents (writeText v st) = ffDelayedKeyboardEvents st /\
  sentKeyboardEvents (writeText v st) = sentKeyboardEvents st /\
  timeouts (writeText v st) = timeouts st /\
  length (writeTextCalls (writeText v st)) <= S (length (writeTextCalls st)).
Proof.
  unfold writeText. destruct (browserHasClipboardAccess (navigator st)); simpl;
    repeat split; try lia.
  rewrite length_app. simpl. lia.
Qed.

Lemma writeFirstTextPlain_frame (its : list ClipboardItem) (st : Bridge) :
  navigator (writeFirstTextPlain its st) = navigator st /\
  ffRemoteClipboardData (writeFirstTextPlain its st) = ffRemoteClipboardData st /\
  ffRemoteClipboardDataRetriesLeft (writeFirstTextPlain its st)
  = ffRemoteClipboardDataRetriesLeft st /\
  ffPostponeKeyboardEvents (writeFirstTextPlain its st) = ffPostponeKeyboardEvents st /\
  ffDelayedKeyboardEvents (writeFirstTextPlain its st) = ffDelayedKeyboardEvents st /\
  sentKeyboardEvents (writeFirstTextPlain its st) = sentKeyboardEvents st /\
  timeouts (writeFirstTextPlain its st) = timeouts st /\
  length (writeTextCalls (writeFirstTextPlain its st)) <= S (length (writeTextCalls st)).
Proof.
  induction its as [|item rest IH]; simpl.
  - repeat split; lia.
  - destruct (String.eqb (mimeType item) "text/plain"); [|exact IH].
    destruct (value item); [apply writeText_frame | repeat split; lia].
Qed.

(** Without a [text/plain] item the loop writes nothing. *)
Lemma writeFirstTextPlain_no_text (its : list ClipboardItem) (st : Bridge) :
  existsb (fun item => String.eqb (mimeType item) "text/plain") its = false ->
  writeFirstTextPlain its st = st.
Proof.
  induction its as [|item rest IH]; simpl; intros H; [reflexivity|].
  apply orb_false_iff in H. destruct H as [Hitem Hrest].
  rewrite Hitem. exact (IH Hrest).
Qed.

Lemma ffWait_frame (st : Bridge) :
  navigator (ffWaitForRemoteClipboardDataSet st) = navigator st /\
  ffPostponeKeyboardEvents (ffWaitForRemoteClipboardDataSet st) = ffPostponeKeyboardEvents st /\
  ffDelayedKeyboardEvents (ffWaitForRemoteClipboardDataSet st) = ffDelayedKeyboardEvents st /\
  sentKeyboardEvents (ffWaitForRemoteClipboardDataSet st) = sentKeyboardEvents st.
Proof.
  unfold ffWaitForRemoteClipboardDataSet.
  destruct (ffRemoteClipboardData st) as [data|].
  - destruct (items data) as [its|]; [|repeat split].
    destruct (writeFirstTextPlain_frame its (setRemoteData None st))
      as (Hn & _ & _ & Hp & Hd & Hs & _).
    rewrite Hn, Hp, Hd, Hs. repeat split.
  - destruct (0 <? _)%nat; repeat split.
Qed.

Lemma keyboardEvent_frame (evt : KeyboardEvent) (st : Bridge) :
  navigator (keyboardEvent evt st) = navigator st /\
  ffPostponeKeyboardEvents (keyboardEvent evt st) = ffPostponeKeyboardEvents st /\
  ffDelayedKeyboardEvents (keyboardEvent evt st) = ffDelayedKeyboardEvents st /\
  sentKeyboardEvents (keyboardEvent evt st) = sentKeyboardEvents st ++ [evt].
Proof.
  unfold keyboardEvent.
  destruct (isFirefox (navigator st) && browserHasClipboardAccess (navigator st)
            && isCopyKeyboardEvent evt); simpl; [|repeat split].
  destruct (ffWait_frame (setRetriesLeft FF_REMOTE_CLIPBOARD_DATA_SET_MAX_RETRIES st))
    as (Hn & Hp & Hd & Hs).
  rewrite Hn, Hp, Hd, Hs. repeat split.
Qed.

(** Replaying a list of events sends them in order and leaves the buffer
    and the postponement flag alone. *)
Lemma replay_frame (evts : list KeyboardEvent) :
  forall st,
    sentKeyboardEvents (fold_left (fun s evt => keyboardEvent evt s) evts st)
    = sentKeyboardEvents st ++ evts /\
    ffPostponeKeyboardEvents (fold_left (fun s evt => keyboardEvent evt s) evts st)
    = ffPostponeKeyboardEvents st /\
    ffDelayedKeyboardEvents (fold_left (fun s evt => keyboardEvent evt s) evts st)
    = ffDelayedKeyboardEvents st.
Proof.
  induction evts as [|evt rest IH]; intros st; simpl.
  - rewrite app_nil_r. repeat split.
  - destruct (IH (keyboardEvent evt st)) as (Hs & Hp & Hd).
    destruct (keyboardEvent_frame evt st) as (_ & Hp' & Hd' & Hs').
    rewrite Hs, Hp, Hd, Hs', Hp', Hd', <- app_assoc. repeat split.
Qed.

Lemma ffSimulateDelayedKeyEvents_replays (st : Bridge) :
  sentKeyboardEvents (ffSimulateDelayedKeyEvents st)
  = sentKeyboardEvents st ++ ffDelayedKeyboardEvents st /\
  ffDelayedKeyboardEvents (ffSimulateDelayedKeyEvents st) = [] /\
  ffPostponeKeyboardEvents (ffSimulateDelayedKeyEvents st) = false.
Proof.
  unfold ffSimulateDelayedKeyEvents.
  destruct (ffDelayedKeyboardEvents st) as [|evt rest] eqn:Hd; simpl.
  - rewrite app_nil_r. repeat split. exact Hd.
  - destruct (replay_frame rest (keyboardEvent evt st)) as (Hs & _).
    destruct (keyboardEvent_frame evt st) as (_ & _ & _ & Hs').
    rewrite Hs, Hs', <- app_assoc. repeat split.
Qed.

Lemma removeTimeout_absent (cb : Callback) (delay : nat) (l : list (Callback * nat)) :
  removeTimeout cb l = None -> removeTimeout cb (l ++ [(cb, delay)]) = Some l.
Proof.
  induction l as [|t r IH]; simpl; intros H.
  - destruct cb; reflexivity.
  - destruct (callbackEqb (fst t) cb); [discriminate|].
    destruct (removeTimeout cb r); [discriminate|].
    rewrite (IH eq_refl). reflexivity.
Qed.

Lemma removeTimeout_pending (cb : Callback) (delay : nat) (l : list (Callback * nat)) :
  exists l', removeTimeout cb (l ++ [(cb, delay)]) = Some l'.
Proof.
  induction l as [|t r IH]; simpl.
  - destruct cb; eexists; reflexivity.
  - destruct (callbackEqb (fst t) cb); [eexists; reflexivity|].
    destruct IH as (l' & ->). eexists; reflexivity.
Qed.

(** ** Key-event postponement *)

Lemma captureAll_cons (evt : KeyboardEvent) (rest : list KeyboardEvent) (st : Bridge) :
  captureAll (evt :: rest) st = captureAll rest (captureKeys true evt st).
Proof. reflexivity. Qed.

Lemma captureKeys_postponed (evt : KeyboardEvent) (st : Bridge) :
  ffPostponeKeyboardEvents st = true ->
  captureKeys true evt st = setDelayed (ffDelayedKeyboardEvents st ++ [evt]) st.
Proof. intros Hp. unfold captureKeys. rewrite Hp. reflexivity. Qed.

(** While postponement is on, captured key events only grow the buffer. *)
Lemma captureAll_postponed (evts : list KeyboardEvent) :
  forall st,
    ffPostponeKeyboardEvents st = true ->
    captureAll evts st = setDelayed (ffDelayedKeyboardEvents st ++ evts) st.
Proof.
  induction evts as [|evt rest IH]; intros st Hp.
  - unfold captureAll. simpl. rewrite app_nil_r. destruct st; reflexivity.
  - rewrite captureAll_cons, (captureKeys_postponed evt st Hp).
    rewrite IH by exact Hp. simpl. rewrite <- app_assoc. reflexivity.
Qed.

Lemma release_replays (r : Release) (st : Bridge) :
  (r = CopyTimeoutElapsed ->
   exists l, removeTimeout SimulateDelayedKeyEvents (timeouts st) = Some l) ->
  sentKeyboardEvents (release r st) = sentKeyboardEvents st ++ ffDelayedKeyboardEvents st /\
  ffDelayedKeyboardEvents (release r st) = [] /\
  ffPostponeKeyboardEvents (release r st) = false.
Proof.
  intros Hpending. destruct r; unfold release, ffOnRemoteReceivedFormatList.
  - apply ffSimulateDelayedKeyEvents_replays.
  - destruct (Hpending eq_refl) as (l & Hl). unfold fire. rewrite Hl.
    apply (ffSimulateDelayedKeyEvents_replays (setTimeouts l st)).
Qed.

(** With nothing buffered a release sends nothing. *)
Lemma release_idle (r : Release) (st : Bridge) :
  ffDelayedKeyboardEvents st = [] ->
  sentKeyboardEvents (release r st) = sentKeyboardEvents st /\
  ffDelayedKeyboardEvents (release r st) = [].
Proof.
  intros Hd. destruct r; unfold release, ffOnRemoteReceivedFormatList.
  - destruct (ffSimulateDelayedKeyEvents_replays st) as (Hs & Hd' & _).
    rewrite Hs, Hd, app_nil_r. split; [reflexivity | exact Hd'].
  - unfold fire.
    destruct (removeTimeout SimulateDelayedKeyEvents (timeouts st)) as [l|];
      [|split; [reflexivity | exact Hd]].
    destruct (ffSimulateDelayedKeyEvents_replays (setTimeouts l st)) as (Hs & Hd' & _).
    split; [|exact Hd'].
    rewrite Hs. simpl. rewrite Hd, app_nil_r. reflexivity.
Qed.

Lemma releases_idle (rs : list Release) :
  forall st,
    ffDelayedKeyboardEvents st = [] ->
    sentKeyboardEvents (fold_left (fun s r => release r s) rs st) = sentKeyboardEvents st.
Proof.
  induction rs as [|r rest IH]; intros st Hd; simpl; [reflexivity|].
  destruct (release_idle r st Hd) as (Hs & Hd').
  rewrite (IH _ Hd'). exact Hs.
Qed.

Lemma ffWait_keeps_simulate (st : Bridge) :
  existsb isSimulateTimeout (timeouts (ffWaitForRemoteClipboardDataSet st))
  = existsb isSimulateTimeout (timeouts st).
Proof.
  unfold ffWaitForRemoteClipboardDataSet.
  destruct (ffRemoteClipboardData st) as [data|].
  - destruct (items data) as [its|]; [|reflexivity].
    destruct (writeFirstTextPlain_frame its (setRemoteData None st))
      as (_ & _ & _ & _ & _ & _ & Ht & _).
    rewrite Ht. reflexivity.
  - destruct (0 <? _)%nat; [|reflexivity]. simpl.
    rewrite existsb_app. simpl. rewrite !orb_false_r. reflexivity.
Qed.

Lemma keyboardEvent_keeps_simulate (evt : KeyboardEvent) (st : Bridge) :
  existsb isSimulateTimeout (timeouts (keyboardEvent evt st))
  = existsb isSimulateTimeout (timeouts st).
Proof.
  unfold keyboardEvent.
  destruct (isFirefox (navigator st) && browserHasClipboardAccess (navigator st)
            && isCopyKeyboardEvent evt); simpl; [|reflexivity].
  apply (ffWait_keeps_simulate (setRetriesLeft FF_REMOTE_CLIPBOARD_DATA_SET_MAX_RETRIES st)).
Qed.

Lemma ffSimulateDelayedKeyEvents_keeps_simulate (st : Bridge) :
  existsb isSimulateTimeout (timeouts (ffSimulateDelayedKeyEvents st))
  = existsb isSimulateTimeout (timeouts st).
Proof.
  assert (Hfold : forall evts s,
             existsb isSimulateTimeout
               (timeouts (fold_left (fun s evt => keyboardEvent evt s) evts s))
             = existsb isSimulateTimeout (timeouts s)).
  { induction evts as [|evt rest IH]; intros s; simpl; [reflexivity|].
    rewrite IH. apply keyboardEvent_keeps_simulate. }
  unfold ffSimulateDelayedKeyEvents.
  destruct (ffDelayedKeyboardEvents st) as [|evt rest]; simpl; [reflexivity|].
  rewrite Hfold. apply keyboardEvent_keeps_simulate.
Qed.

Lemma removeTimeout_app (cb : Callback) (l l' more : list (Callback * nat)) :
  removeTimeout cb l = Some l' -> removeTimeout cb (l ++ more) = Some (l' ++ more).
Proof.
  revert l'. induction l as [|t r IH]; simpl; intros l' H; [discriminate|].
  destruct (callbackEqb (fst t) cb).
  - inversion H; subst. reflexivity.
  - destruct (removeTimeout cb r) as [r'|]; [|discriminate].
    inversion H; subst. rewrite (IH r' eq_refl). reflexivity.
Qed.

(** C8, counterexample: timeouts are never cancelled.  A first Ctrl+V is
    buffered and released by the "format list received" signal; its 1000 ms
    timeout stays pending.  A second Ctrl+V and a following key are then
    buffered, with a second timeout scheduled behind the first.  When the
    first timeout fires, the second buffer is sent to the remote session:
    no signal has come since the second paste, and the timeout that paste
    scheduled is still pending, so its 1000 ms have not elapsed. *)
Lemma captureKeys_released_by_earlier_timeout :
  timeouts (captureAll [mkKey true "KeyV"; mkKey false "KeyA"]
              (release FormatListReceived (captureAll [mkKey true "KeyV"] firefoxBridge)))
  = [(SimulateDelayedKeyEvents, 1000); (SimulateDelayedKeyEvents, 1000)] /\
  sentKeyboardEvents
    (captureAll [mkKey true "KeyV"; mkKey false "KeyA"]
       (release FormatListReceived (captureAll [mkKey true "KeyV"] firefoxBridge)))
  = [mkKey true "KeyV"] /\
  ffDelayedKeyboardEvents
    (captureAll [mkKey true "KeyV"; mkKey false "KeyA"]
       (release FormatListReceived (captureAll [mkKey true "KeyV"] firefoxBridge)))
  = [mkKey true "KeyV"; mkKey false "KeyA"] /\
  sentKeyboardEvents
    (release CopyTimeoutElapsed
       (captureAll [mkKey true "KeyV"; mkKey false "KeyA"]
          (release FormatListReceived (captureAll [mkKey true "KeyV"] firefoxBridge))))
  = [mkKey true "KeyV"; mkKey true "KeyV"; mkKey false "KeyA"] /\
  timeouts
    (release CopyTimeoutElapsed
       (captureAll [mkKey true "KeyV"; mkKey false "KeyA"]
          (release FormatListReceived (captureAll [mkKey true "KeyV"] firefoxBridge))))
  = [(SimulateDelayedKeyEvents, 1000)].
Proof. repeat split. Qed.

(** C8 (as amended): in degraded mode, a paste-combination key event
    arriving while no postponement is active turns buffering on and
    schedules a 1000 ms replay timeout behind the replay timeouts still
    pending from earlier pastes, which are never cancelled; that event and
    every key event captured after it are queued and none is sent.  The
    first release, be it the "format list received" signal or the firing
    of the oldest pending replay timeout, sends all of them to the remote
    session in arrival order, once each, and empties the buffer; whatever
    releases follow send nothing more.  When a replay timeout of an earlier
    paste is still pending, it is the one that fires first, and the
    timeout of this paste is still pending after the replay. *)
Theorem captureKeys_buffers_and_replays_once
        (st : Bridge) (paste : KeyboardEvent) (evts : list KeyboardEvent) :
  isFirefox (navigator st) = true ->
  ffPostponeKeyboardEvents st = false ->
  isPasteKeyboardEvent paste = true ->
  sentKeyboardEvents (captureAll (paste :: evts) st) = sentKeyboardEvents st /\
  ffDelayedKeyboardEvents (captureAll (paste :: evts) st) = paste :: evts /\
  ffPostponeKeyboardEvents (captureAll (paste :: evts) st) = true /\
  In (SimulateDelayedKeyEvents, 1000) (timeouts (captureAll (paste :: evts) st)) /\
  timeouts (captureAll (paste :: evts) st)
  = timeouts st ++ [(SimulateDelayedKeyEvents, 1000)] /\
  (forall l,
     removeTimeout SimulateDelayedKeyEvents (timeouts st) = Some l ->
     existsb isSimulateTimeout
       (timeouts (release CopyTimeoutElapsed (captureAll (paste :: evts) st))) = true) /\
  forall (first : Release) (later : list Release),
    sentKeyboardEvents (release first (captureAll (paste :: evts) st))
    = sentKeyboardEvents st ++ paste :: evts /\
    ffDelayedKeyboardEvents (release first (captureAll (paste :: evts) st)) = [] /\
    ffPostponeKeyboardEvents (release first (captureAll (paste :: evts) st)) = false /\
    sentKeyboardEvents
      (fold_left (fun s r => release r s) later
         (release first (captureAll (paste :: evts) st)))
    = sentKeyboardEvents st ++ paste :: evts.
Proof.
  intros Hff Hpost Hpaste.
  assert (Hbuf : captureAll (paste :: evts) st
                 = setDelayed (paste :: evts)
                     (setTimeout SimulateDelayedKeyEvents FF_LOCAL_CLIPBOARD_COPY_TIMEOUT
                        (setDelayed [paste] (setPostpone true st)))).
  { rewrite captureAll_cons.
    assert (Hfirst : captureKeys true paste st
                     = setTimeout SimulateDelayedKeyEvents FF_LOCAL_CLIPBOARD_COPY_TIMEOUT
                         (setDelayed [paste] (setPostpone true st)))
      by (unfold captureKeys; rewrite Hpost, Hff, Hpaste; reflexivity).
    rewrite Hfirst, captureAll_postponed by reflexivity. reflexivity. }
  rewrite Hbuf.
  split; [reflexivity|]. split; [reflexivity|]. split; [reflexivity|].
  split; [simpl; apply in_or_app; right; left; reflexivity|].
  split; [reflexivity|].
  split.
  { intros l Hl. unfold release, fire.
    change (timeouts (setDelayed (paste :: evts)
                        (setTimeout SimulateDelayedKeyEvents FF_LOCAL_CLIPBOARD_COPY_TIMEOUT
                           (setDelayed [paste] (setPostpone true st)))))
      with (timeouts st ++ [(SimulateDelayedKeyEvents, FF_LOCAL_CLIPBOARD_COPY_TIMEOUT)]).
    rewrite (removeTimeout_app _ _ _ _ Hl), ffSimulateDelayedKeyEvents_keeps_simulate.
    simpl. rewrite existsb_app. simpl. apply orb_true_r. }
  intros first later. simpl. repeat split.
  - destruct (release_replays first
                (setDelayed (paste :: evts)
                   (setTimeout SimulateDelayedKeyEvents FF_LOCAL_CLIPBOARD_COPY_TIMEOUT
                      (setDelayed [paste] (setPostpone true st))))) as (Hs & _).
    { intros _. simpl. apply removeTimeout_pending. }
    exact Hs.
  - apply release_replays. intros _. simpl. apply removeTimeout_pending.
  - apply release_replays. intros _. simpl. apply removeTimeout_pending.
  - rewrite releases_idle.
    + destruct (release_replays first
                  (setDelayed (paste :: evts)
                     (setTimeout SimulateDelayedKeyEvents FF_LOCAL_CLIPBOARD_COPY_TIMEOUT
                        (setDelayed [paste] (setPostpone true st))))) as (Hs & _).
      { intros _. simpl. apply removeTimeout_pending. }
      exact Hs.
    + apply release_replays. intros _. simpl. apply removeTimeout_pending.
Qed.

Lemma captureKeys_buffers_and_replays_once_witness :
  sentKeyboardEvents
    (release FormatListReceived
       (captureAll (mkKey true "KeyV" :: [mkKey false "KeyA"; mkKey true "KeyC"])
          firefoxBridge))
  = sentKeyboardEvents firefoxBridge
    ++ mkKey true "KeyV" :: [mkKey false "KeyA"; mkKey true "KeyC"].
Proof.
  exact (proj1 (proj2 (proj2 (proj2 (proj2 (proj2 (proj2
           (captureKeys_buffers_and_replays_once firefoxBridge (mkKey true "KeyV")
              [mkKey false "KeyA"; mkKey true "KeyC"] eq_refl eq_refl eq_refl))))))
           FormatListReceived [])).
Defined.

(** ** The retry-wait chain *)

Lemma waitChain_done (fuel : nat) (arrivals : nat -> option ClipboardData)
      (fired : nat) (st : Bridge) :
  removeTimeout WaitForRemoteClipboardDataSet (timeouts st) = None ->
  waitChain fuel arrivals fired st = Some (fired, st).
Proof. intros H. destruct fuel; simpl; rewrite H; reflexivity. Qed.

Lemma waitChain_step (fuel : nat) (arrivals : nat -> option ClipboardData)
      (fired : nat) (st : Bridge) (l : list (Callback * nat)) :
  removeTimeout WaitForRemoteClipboardDataSet (timeouts st) = Some l ->
  waitChain (S fuel) arrivals fired st
  = waitChain fuel arrivals (S fired)
      (fire WaitForRemoteClipboardDataSet
         match arrivals fired with
         | Some data => ffOnRemoteClipboardChanged data st
         | None => st
         end).
Proof. intros H. simpl. rewrite H. reflexivity. Qed.

Lemma waiting_timeouts (r : nat) (st : Bridge) :
  removeTimeout WaitForRemoteClipboardDataSet (timeouts st) = None ->
  removeTimeout WaitForRemoteClipboardDataSet (timeouts (waiting r st)) = Some (timeouts st).
Proof. intros H. simpl. apply removeTimeout_absent. exact H. Qed.

(** A firing that finds nothing pending: reschedule while retries are
    left, give up otherwise. *)
Lemma fire_waiting_idle (r : nat) (st : Bridge) :
  ffRemoteClipboardData st = None ->
  removeTimeout WaitForRemoteClipboardDataSet (timeouts st) = None ->
  fire WaitForRemoteClipboardDataSet (waiting r st)
  = match r with
    | O => setRetriesLeft 0 st
    | S r' => waiting r' st
    end.
Proof.
  intros Hdata Hnone. unfold fire. rewrite (waiting_timeouts r st Hnone).
  unfold ffWaitForRemoteClipboardDataSet. simpl. rewrite Hdata.
  destruct r; reflexivity.
Qed.

(** A firing that finds the payload delivered just before it. *)
Lemma fire_waiting_data (r : nat) (st : Bridge) (data : ClipboardData) :
  removeTimeout WaitForRemoteClipboardDataSet (timeouts st) = None ->
  itemsThrows data = false ->
  fire WaitForRemoteClipboardDataSet (ffOnRemoteClipboardChanged data (waiting r st))
  = writeFirstTextPlain (entries data) (setRemoteData None (setRetriesLeft r st)).
Proof.
  intros Hnone Hitems. unfold ffOnRemoteClipboardChanged, items. rewrite Hitems.
  unfold fire. simpl. rewrite (removeTimeout_absent _ _ _ Hnone).
  unfold ffWaitForRemoteClipboardDataSet, items. simpl. rewrite Hitems. reflexivity.
Qed.

(** Without any arrival a chain with [r] retries left fires [r + 1] more
    times and then stops, having written nothing. *)
Lemma waitChain_idle (arrivals : nat -> option ClipboardData) (r : nat) :
  forall fuel fired st,
    ffRemoteClipboardData st = None ->
    removeTimeout WaitForRemoteClipboardDataSet (timeouts st) = None ->
    r < fuel ->
    (forall j, j <= r -> arrivals (fired + j) = None) ->
    waitChain fuel arrivals fired (waiting r st) = Some (fired + S r, setRetriesLeft 0 st).
Proof.
  induction r as [|r IH]; intros fuel fired st Hdata Hnone Hfuel Harr;
    (destruct fuel as [|fuel]; [lia|]);
    rewrite (waitChain_step _ _ _ _ _ (waiting_timeouts _ st Hnone));
    pose proof (Harr 0 (Nat.le_0_l _)) as H0; rewrite Nat.add_0_r in H0; rewrite H0;
    rewrite (fire_waiting_idle _ st Hdata Hnone).
  - rewrite waitChain_done by exact Hnone. f_equal. f_equal. lia.
  - rewrite (IH fuel (S fired) st Hdata Hnone) by
      (try lia; intros j Hj; replace (S fired + j) with (fired + S j) by lia;
       apply Harr; lia).
    f_equal. f_equal. lia.
Qed.

(** When the first payload arrives just before firing [k + 1], the chain
    stops at that firing. *)
Lemma waitChain_arrival (arrivals : nat -> option ClipboardData) (data : ClipboardData)
      (k : nat) :
  forall r fuel fired st,
    ffRemoteClipboardData st = None ->
    removeTimeout WaitForRemoteClipboardDataSet (timeouts st) = None ->
    k <= r -> k < fuel ->
    (forall j, j < k -> arrivals (fired + j) = None) ->
    arrivals (fired + k) = Some data ->
    itemsThrows data = false ->
    waitChain fuel arrivals fired (waiting r st)
    = Some (fired + S k,
            writeFirstTextPlain (entries data)
              (setRemoteData None (setRetriesLeft (r - k) st))).
Proof.
  induction k as [|k IH]; intros r fuel fired st Hdata Hnone Hr Hfuel Harr Hk Hitems;
    (destruct fuel as [|fuel]; [lia|]);
    rewrite (waitChain_step _ _ _ _ _ (waiting_timeouts _ st Hnone)).
  - rewrite Nat.add_0_r in Hk. rewrite Hk.
    rewrite (fire_waiting_data r st data Hnone Hitems).
    rewrite waitChain_done.
    + rewrite Nat.sub_0_r. f_equal. f_equal. lia.
    + destruct (writeFirstTextPlain_frame (entries data)
                  (setRemoteData None (setRetriesLeft r st))) as (_ & _ & _ & _ & _ & _ & Ht & _).
      rewrite Ht. exact Hnone.
  - pose proof (Harr 0 (Nat.lt_0_succ _)) as H0. rewrite Nat.add_0_r in H0. rewrite H0.
    rewrite (fire_waiting_idle _ st Hdata Hnone).
    destruct r as [|r]; [lia|].
    rewrite (IH r fuel (S fired) st Hdata Hnone) by
      (try lia; try exact Hitems;
       try (intros j Hj; replace (S fired + j) with (fired + S j) by lia; apply Harr; lia);
       replace (S fired + k) with (fired + S k) by lia; exact Hk).
    f_equal. f_equal. lia.
Qed.

(** A copy or cut key event on Firefox with nothing pending starts a chain
    with 29 retries left. *)
Lemma keyboardEvent_starts_chain (evt : KeyboardEvent) (st : Bridge) :
  isFirefox (navigator st) = true ->
  browserHasClipboardAccess (navigator st) = true ->
  isCopyKeyboardEvent evt = true ->
  ffRemoteClipboardData st = None ->
  keyboardEvent evt st = waiting 29 (sendKeyboardEvent evt st).
Proof.
  intros Hff Hacc Hcopy Hdata. unfold keyboardEvent. rewrite Hff, Hacc, Hcopy. simpl.
  unfold ffWaitForRemoteClipboardDataSet. simpl. rewrite Hdata. reflexivity.
Qed.

(** C7, counterexample: the key-down and the key-up event of one Ctrl+C are
    both copy key events, and each starts a chain with the budget reset to
    30.  Two wait timers are then pending and draw on the one retry counter:
    with no payload ever arriving, all of them have run out after 31 firings
    in total, so the two chains cannot have made 30 firings each. *)
Lemma ffWaitForRemoteClipboardDataSet_shared_budget :
  timeouts (keyboardEvent (mkKey true "KeyC")
              (keyboardEvent (mkKey true "KeyC") firefoxBridge))
  = [(WaitForRemoteClipboardDataSet, 100); (WaitForRemoteClipboardDataSet, 100)] /\
  ffRemoteClipboardDataRetriesLeft
    (keyboardEvent (mkKey true "KeyC") (keyboardEvent (mkKey true "KeyC") firefoxBridge))
  = 29 /\
  option_map fst
    (waitChain 100 (fun _ => None) 0
       (keyboardEvent (mkKey true "KeyC")
          (keyboardEvent (mkKey true "KeyC") firefoxBridge)))
  = Some 31.
Proof. repeat split. Qed.

(** C7 (as amended): a copy/cut key event in degraded mode, arriving while
    no wait timer is pending and followed by no other copy/cut key event
    before its chain ends, starts a retry-wait chain with a budget of 30.
    If nothing is pending at the key event and no payload ever arrives, the
    chain stops after exactly 30 timer firings and no clipboard write has
    been made.  If the first payload arrives just before firing [k + 1] (of
    the 30), the chain stops at that firing, with at most one write and the
    retries that remained left unused.  If a payload is pending at the key
    event itself, it is consumed there and no timer fires at all. *)
Theorem ffWaitForRemoteClipboardDataSet_chain (st : Bridge) (evt : KeyboardEvent) :
  isFirefox (navigator st) = true ->
  browserHasClipboardAccess (navigator st) = true ->
  isCopyKeyboardEvent evt = true ->
  removeTimeout WaitForRemoteClipboardDataSet (timeouts st) = None ->
  (ffRemoteClipboardData st = None ->
   forall fuel, 30 <= fuel ->
     exists st',
       waitChain fuel (fun _ => None) 0 (keyboardEvent evt st) = Some (30, st') /\
       writeTextCalls st' = writeTextCalls st /\
       ffRemoteClipboardData st' = None) /\
  (ffRemoteClipboardData st = None ->
   forall arrivals k data fuel,
     k < 30 -> k < fuel ->
     (forall j, j < k -> arrivals j = None) ->
     arrivals k = Some data ->
     itemsThrows data = false ->
     exists st',
       waitChain fuel arrivals 0 (keyboardEvent evt st) = Some (S k, st') /\
       length (writeTextCalls st') <= S (length (writeTextCalls st)) /\
       ffRemoteClipboardData st' = None /\
       ffRemoteClipboardDataRetriesLeft st' = 29 - k) /\
  (forall data arrivals fuel,
     ffRemoteClipboardData st = Some data ->
     exists st',
       waitChain fuel arrivals 0 (keyboardEvent evt st) = Some (0, st') /\
       length (writeTextCalls st') <= S (length (writeTextCalls st)) /\
       ffRemoteClipboardData st' = None).
Proof.
  intros Hff Hacc Hcopy Hnone. split; [|split].
  - intros Hdata fuel Hfuel.
    rewrite (keyboardEvent_starts_chain evt st Hff Hacc Hcopy Hdata).
    rewrite (waitChain_idle (fun _ => None) 29 fuel 0 (sendKeyboardEvent evt st))
      by (try exact Hdata; try exact Hnone; try lia; reflexivity).
    eexists. split; [reflexivity|]. split; [reflexivity | exact Hdata].
  - intros Hdata arrivals k data fuel Hk Hfuel Harr Hat Hitems.
    rewrite (keyboardEvent_starts_chain evt st Hff Hacc Hcopy Hdata).
    rewrite (waitChain_arrival arrivals data k 29 fuel 0 (sendKeyboardEvent evt st))
      by (try exact Hdata; try exact Hnone; try exact Hitems; try lia;
          try (intros j Hj; apply Harr; exact Hj); exact Hat).
    eexists. split; [reflexivity|].
    destruct (writeFirstTextPlain_frame (entries data)
                (setRemoteData None (setRetriesLeft (29 - k) (sendKeyboardEvent evt st))))
      as (_ & Hd & Hr & _ & _ & _ & _ & Hw).
    rewrite Hd, Hr. repeat split. exact Hw.
  - intros data arrivals fuel Hdata.
    assert (Hkey : keyboardEvent evt st
                   = sendKeyboardEvent evt
                       (match items data with
                        | Some its =>
                            writeFirstTextPlain its
                              (setRemoteData None
                                 (setRetriesLeft FF_REMOTE_CLIPBOARD_DATA_SET_MAX_RETRIES st))
                        | None =>
                            setRemoteData None
                              (setRetriesLeft FF_REMOTE_CLIPBOARD_DATA_SET_MAX_RETRIES st)
                        end)).
    { unfold keyboardEvent. rewrite Hff, Hacc, Hcopy. simpl.
      unfold ffWaitForRemoteClipboardDataSet. simpl. rewrite Hdata. reflexivity. }
    rewrite Hkey. destruct (items data) as [its|].
    + destruct (writeFirstTextPlain_frame its
                  (setRemoteData None
                     (setRetriesLeft FF_REMOTE_CLIPBOARD_DATA_SET_MAX_RETRIES st)))
        as (_ & Hd & _ & _ & _ & _ & Ht & Hw).
      eexists. split; [apply waitChain_done; simpl; rewrite Ht; exact Hnone|].
      simpl. rewrite Hd. split; [exact Hw | reflexivity].
    + eexists. split; [apply waitChain_done; exact Hnone|].
      simpl. split; [lia | reflexivity].
Qed.

Lemma ffWaitForRemoteClipboardDataSet_chain_witness :
  exists st',
    waitChain 31 (fun _ => None) 0 (keyboardEvent (mkKey true "KeyC") firefoxBridge)
    = Some (30, st') /\
    writeTextCalls st' = writeTextCalls firefoxBridge /\
    ffRemoteClipboardData st' = None.
Proof.
  refine (proj1 (ffWaitForRemoteClipboardDataSet_chain firefoxBridge (mkKey true "KeyC")
                   eq_refl eq_refl eq_refl eq_refl) eq_refl 31 _).
  lia.
Defined.

(** A chain whose payload arrives before the third firing stops there and
    writes the text once. *)
Example waitChain_third_firing :
  option_map (fun r => (fst r, writeTextCalls (snd r), ffRemoteClipboardData (snd r)))
    (waitChain 31 (fun i => if (i =? 2)%nat then Some helloData else None) 0
       (keyboardEvent (mkKey true "KeyC") firefoxBridge))
  = Some (3, ["hello"], None).
Proof. reflexivity. Qed.

(** ** Consumption of the pending holder *)

(** C10: a firing of the wait function that finds a payload pending clears
    the holder before looking at the items, so the holder is empty
    afterwards whatever the items are, even when enumerating them throws,
    and nothing is rescheduled.  A payload without a [text/plain] item is
    thereby dropped without a clipboard write, and a later copy/cut key
    event finds the holder empty and writes nothing. *)
Theorem ffWaitForRemoteClipboardDataSet_consumes (st : Bridge) (data : ClipboardData) :
  ffRemoteClipboardData st = Some data ->
  ffRemoteClipboardData (ffWaitForRemoteClipboardDataSet st) = None /\
  timeouts (ffWaitForRemoteClipboardDataSet st) = timeouts st /\
  ffRemoteClipboardDataRetriesLeft (ffWaitForRemoteClipboardDataSet st)
  = ffRemoteClipboardDataRetriesLeft st /\
  (itemsThrows data = true \/
   existsb (fun item => String.eqb (mimeType item) "text/plain") (entries data) = false ->
   ffWaitForRemoteClipboardDataSet st = setRemoteData None st /\
   writeTextCalls (ffWaitForRemoteClipboardDataSet st) = writeTextCalls st) /\
  (forall evt,
     ffRemoteClipboardData (keyboardEvent evt (ffWaitForRemoteClipboardDataSet st)) = None /\
     writeTextCalls (keyboardEvent evt (ffWaitForRemoteClipboardDataSet st))
     = writeTextCalls (ffWaitForRemoteClipboardDataSet st)).
Proof.
  intros Hdata.
  assert (Hwait : ffWaitForRemoteClipboardDataSet st
                  = match items data with
                    | Some its => writeFirstTextPlain its (setRemoteData None st)
                    | None => setRemoteData None st
                    end)
    by (unfold ffWaitForRemoteClipboardDataSet; rewrite Hdata; reflexivity).
  assert (Hcleared : ffRemoteClipboardData (ffWaitForRemoteClipboardDataSet st) = None).
  { rewrite Hwait. destruct (items data) as [its|]; [|reflexivity].
    destruct (writeFirstTextPlain_frame its (setRemoteData None st)) as (_ & Hd & _).
    rewrite Hd. reflexivity. }
  split; [exact Hcleared|]. split; [|split; [|split]].
  - rewrite Hwait. destruct (items data) as [its|]; [|reflexivity].
    destruct (writeFirstTextPlain_frame its (setRemoteData None st))
      as (_ & _ & _ & _ & _ & _ & Ht & _).
    rewrite Ht. reflexivity.
  - rewrite Hwait. destruct (items data) as [its|]; [|reflexivity].
    destruct (writeFirstTextPlain_frame its (setRemoteData None st)) as (_ & _ & Hr & _).
    rewrite Hr. reflexivity.
  - intros Hno. rewrite Hwait. unfold items. destruct Hno as [Hthrow|Hnotext].
    + rewrite Hthrow. split; reflexivity.
    + destruct (itemsThrows data); [split; reflexivity|].
      rewrite (writeFirstTextPlain_no_text _ _ Hnotext). split; reflexivity.
  - intros evt. unfold keyboardEvent.
    destruct (isFirefox _ && browserHasClipboardAccess _ && isCopyKeyboardEvent evt);
      simpl; [|split; [exact Hcleared | reflexivity]].
    unfold ffWaitForRemoteClipboardDataSet at 1 3. simpl. rewrite Hcleared.
    destruct (0 <? FF_REMOTE_CLIPBOARD_DATA_SET_MAX_RETRIES)%nat; simpl;
      split; try exact Hcleared; reflexivity.
Qed.

Lemma ffWaitForRemoteClipboardDataSet_consumes_witness :
  ffRemoteClipboardData
    (ffWaitForRemoteClipboardDataSet
       (setRemoteData (Some (mkData [mkItem "image/png" (VBytes [x89; x50]%byte)] false))
          firefoxBridge))
  = None.
Proof.
  exact (proj1 (ffWaitForRemoteClipboardDataSet_consumes
                  (setRemoteData
                     (Some (mkData [mkItem "image/png" (VBytes [x89; x50]%byte)] false))
                     firefoxBridge)
                  (mkData [mkItem "image/png" (VBytes [x89; x50]%byte)] false) eq_refl)).
Defined.

(** * Further properties *)

(** ** The focus gate, continued *)

Lemma appendsOnly_callProbe (p : Probe) : appendsOnly callProbe p.
Proof.
  induction p as [n|msg|q IH]; intros s; simpl.
  - exists []. rewrite app_nil_r. reflexivity.
  - exists []. rewrite app_nil_r. reflexivity.
  - destruct (hasFocus s); [apply IH|]. exists [q]. reflexivity.
Qed.

Lemma focusEventHandler_append_only_witness :
  runWhenFocusedQueue (mkGate false [] [1; 7] : Gate Probe (list nat)) = [] /\
  exists later,
    [Defer (Mark 7); Mark 1; Mark 7]
    = runWhenFocusedQueue (mkGate false [Defer (Mark 7); Mark 1] [] : Gate Probe (list nat))
      ++ later.
Proof.
  exact (focusEventHandler_append_only Probe (list nat) callProbe 4
           appendsOnly_callProbe
           (mkGate false [Defer (Mark 7); Mark 1] [])
           [Defer (Mark 7); Mark 1; Mark 7]
           (mkGate false [] [1; 7]) eq_refl).
Defined.

Section FocusGateOrder.

Variables (A D : Type).
Variable call : A -> Gate A D -> Completion A D.

(** Without focus every call of [runWhenWindowFocused] only queues. *)
Lemma deferAll_unfocused (fns : list A) :
  forall st,
    hasFocus st = false ->
    deferAll call fns st = withQueue (runWhenFocusedQueue st ++ fns) st.
Proof.
  induction fns as [|fn rest IH]; intros st Hf; unfold deferAll; simpl.
  - rewrite app_nil_r. destruct st; reflexivity.
  - unfold runWhenWindowFocused at 2. rewrite Hf. simpl completionState.
    fold (deferAll call rest (push fn st)).
    rewrite IH by exact Hf. unfold push, withQueue. simpl.
    rewrite <- app_assoc. reflexivity.
Qed.

(** X2: actions handed to [runWhenWindowFocused] while the document lacks
    focus are all kept, behind what was already queued, and the next
    focus-gain event invokes the whole queue in the order of the calls,
    once each, leaving it empty. *)
Theorem runWhenWindowFocused_then_focus_fifo (fns : list A) (st : Gate A D) (fuel : nat) :
  hasFocus st = false ->
  (forall g, In g (runWhenFocusedQueue st ++ fns) -> inert call g) ->
  length (runWhenFocusedQueue st ++ fns) <= fuel ->
  exists st',
    focusEventHandler call fuel (focusChanged true (deferAll call fns st))
    = (runWhenFocusedQueue st ++ fns, Some (Returned st')) /\
    runWhenFocusedQueue st' = [].
Proof.
  intros Hf Hin Hfuel. rewrite (deferAll_unfocused fns st Hf).
  assert (Hq : runWhenFocusedQueue
                 (focusChanged true (withQueue (runWhenFocusedQueue st ++ fns) st))
               = (runWhenFocusedQueue st ++ fns) ++ []) by (rewrite app_nil_r; reflexivity).
  destruct (focusEventHandler_inert_prefix A D call _ _ _ Hq Hin) as (mid & Hmid & Hrun).
  replace fuel with (length (runWhenFocusedQueue st ++ fns)
                     + (fuel - length (runWhenFocusedQueue st ++ fns))) by lia.
  rewrite Hrun, (focusEventHandler_empty A D call _ _ Hmid). simpl.
  rewrite app_nil_r. exists mid. split; [reflexivity | exact Hmid].
Qed.

End FocusGateOrder.

Lemma runWhenWindowFocused_then_focus_fifo_witness :
  exists st',
    focusEventHandler callProbe 3
      (focusChanged true (deferAll callProbe [Mark 2; Mark 3] (mkGate false [Mark 1] [])))
    = (runWhenFocusedQueue (mkGate false [Mark 1] [] : Gate Probe (list nat))
       ++ [Mark 2; Mark 3],
       Some (Returned st')) /\
    runWhenFocusedQueue st' = [].
Proof.
  refine (runWhenWindowFocused_then_focus_fifo Probe (list nat) callProbe
            [Mark 2; Mark 3] (mkGate false [Mark 1] []) 3 eq_refl _ _).
  - intros g [<-|[<-|[<-|[]]]]; apply inert_Mark.
  - simpl. lia.
Defined.

(** ** Remote changes buffered behind the gate *)

Lemma clipboardDataToRecord_items (data : ClipboardData) :
  clipboardDataToRecord data = option_map blobsRecord (items data).
Proof. unfold clipboardDataToRecord. destruct (items data); reflexivity. Qed.

Lemma clipboardDataToClipboardItemsRecord_items (data : ClipboardData) :
  clipboardDataToClipboardItemsRecord data = option_map itemsRecord (items data).
Proof. unfold clipboardDataToClipboardItemsRecord. destruct (items data); reflexivity. Qed.

Lemma items_entries (data : ClipboardData) :
  itemsThrows data = false -> items data = Some (entries data).
Proof. intros H. unfold items. rewrite H. reflexivity. Qed.








(** ** The two conversions of a remote payload *)

Lemma find_snoc {T : Type} (f : T -> bool) (l : list T) (x : T) :
  find f (l ++ [x])
  = match find f l with
    | Some y => Some y
    | None => if f x then Some x else None
    end.
Proof.
  induction l as [|y l IH]; simpl; [reflexivity|].
  destruct (f y); [reflexivity | exact IH].
Qed.

(** Looking a key up after a loop of assignments: the last element
    assigned under that key decides. *)
Lemma recGet_fold_recSet {T V : Type} (key : T -> string) (val : T -> V) (its : list T) :
  forall acc k,
    recGet (fold_left (fun r it => recSet (key it) (val it) r) its acc) k
    = match find (fun it => String.eqb (key it) k) (rev its) with
      | Some it => Some (val it)
      | None => recGet acc k
      end.
Proof.
  induction its as [|it its IH]; intros acc k; simpl; [reflexivity|].
  rewrite IH, find_snoc.
  destruct (find _ (rev its)); [reflexivity|].
  destruct (String.eqb (key it) k) eqn:E.
  - apply String.eqb_eq in E. subst k. apply recGet_recSet_same.
  - apply String.eqb_neq in E. apply recGet_recSet_other. exact E.
Qed.

(** X4: for a remote payload whose items can be enumerated, both
    conversions map each MIME type to the last item carrying it (a later
    item overwrites an earlier one of the same type), the snapshot to its
    value and the platform record to a blob of that value tagged with the
    type; a type no item carries is absent from both. *)
Theorem clipboardData_records_lookup (data : ClipboardData) (its : list ClipboardItem) :
  items data = Some its ->
  exists snapshot record,
    clipboardDataToClipboardItemsRecord data = Some snapshot /\
    clipboardDataToRecord data = Some record /\
    forall k,
      recGet snapshot k
      = option_map value (find (fun it => String.eqb (mimeType it) k) (rev its)) /\
      recGet record k
      = option_map (fun it => newBlob (value it) k)
          (find (fun it => String.eqb (mimeType it) k) (rev its)).
Proof.
  intros Hits. exists (itemsRecord its), (blobsRecord its).
  rewrite clipboardDataToClipboardItemsRecord_items, clipboardDataToRecord_items, Hits.
  split; [reflexivity|]. split; [reflexivity|]. intros k. split.
  - unfold itemsRecord. rewrite (recGet_fold_recSet mimeType value).
    destruct (find _ (rev its)); reflexivity.
  - unfold blobsRecord.
    rewrite (recGet_fold_recSet mimeType (fun it => newBlob (value it) (mimeType it))).
    destruct (find _ (rev its)) as [it|] eqn:E; [|reflexivity].
    apply find_some in E. destruct E as [_ E]. apply String.eqb_eq in E.
    simpl. rewrite E. reflexivity.
Qed.

Lemma clipboardData_records_lookup_witness :
  exists snapshot record,
    clipboardDataToClipboardItemsRecord
      (mkData [mkItem "text/plain" (VString "a"); mkItem "text/plain" (VString "b")] false)
    = Some snapshot /\
    clipboardDataToRecord
      (mkData [mkItem "text/plain" (VString "a"); mkItem "text/plain" (VString "b")] false)
    = Some record /\
    forall k,
      recGet snapshot k
      = option_map value
          (find (fun it => String.eqb (mimeType it) k)
             (rev [mkItem "text/plain" (VString "a"); mkItem "text/plain" (VString "b")])) /\
      recGet record k
      = option_map (fun it => newBlob (value it) k)
          (find (fun it => String.eqb (mimeType it) k)
             (rev [mkItem "text/plain" (VString "a"); mkItem "text/plain" (VString "b")])).
Proof.
  exact (clipboardData_records_lookup
           (mkData [mkItem "text/plain" (VString "a"); mkItem "text/plain" (VString "b")] false)
           [mkItem "text/plain" (VString "a"); mkItem "text/plain" (VString "b")] eq_refl).
Defined.

Lemma recSet_keys {V : Type} (k : string) (v : V) (r : Rec V) :
  map fst (recSet k v r) = addKey k (map fst r).
Proof.
  unfold addKey. induction r as [|[k' v'] r IH]; simpl; [reflexivity|].
  destruct (String.eqb k' k); simpl; [reflexivity|].
  rewrite IH. destruct (existsb _ (map fst r)); reflexivity.
Qed.

Lemma existsb_eqb_In (k : string) (ks : list string) :
  existsb (fun k' => String.eqb k' k) ks = true <-> In k ks.
Proof.
  rewrite existsb_exists. split.
  - intros (x & Hin & Heq). apply String.eqb_eq in Heq. subst. exact Hin.
  - intros Hin. exists k. split; [exact Hin | apply String.eqb_refl].
Qed.

Lemma addKey_In (k k0 : string) (ks : list string) :
  In k (addKey k0 ks) <-> k = k0 \/ In k ks.
Proof.
  unfold addKey. destruct (existsb _ ks) eqn:E.
  - apply existsb_eqb_In in E. split; [intros H; right; exact H|].
    intros [->|H]; assumption.
  - rewrite in_app_iff. simpl. split.
    + intros [H|[H|[]]]; [right; exact H | left; symmetry; exact H].
    + intros [->|H]; [right; left; reflexivity | left; exact H].
Qed.

Lemma addKey_NoDup (k : string) (ks : list string) : NoDup ks -> NoDup (addKey k ks).
Proof.
  intros Hnd. unfold addKey. destruct (existsb _ ks) eqn:E; [exact Hnd|].
  assert (Hnot : ~ In k ks).
  { intros Hin. apply existsb_eqb_In in Hin. rewrite Hin in E. discriminate. }
  clear E. induction ks as [|x ks IH]; simpl.
  - constructor; [intros []|constructor].
  - inversion Hnd as [|? ? Hx Hks]; subst. constructor.
    + rewrite in_app_iff. simpl. intros [H|[H|[]]]; [exact (Hx H)|].
      apply Hnot. left. symmetry. exact H.
    + apply IH; [exact Hks|]. intros H. apply Hnot. right. exact H.
Qed.

Lemma fold_recSet_keys {T V : Type} (key : T -> string) (val : T -> V) (its : list T) :
  forall acc,
    map fst (fold_left (fun r it => recSet (key it) (val it) r) its acc)
    = fold_left (fun ks it => addKey (key it) ks) its (map fst acc).
Proof.
  induction its as [|it its IH]; intros acc; simpl; [reflexivity|].
  rewrite IH, recSet_keys. reflexivity.
Qed.

Lemma fold_addKey_facts {T : Type} (key : T -> string) (its : list T) :
  forall ks,
    NoDup ks ->
    NoDup (fold_left (fun ks it => addKey (key it) ks) its ks) /\
    forall k, In k (fold_left (fun ks it => addKey (key it) ks) its ks)
              <-> In k ks \/ In k (map key its).
Proof.
  induction its as [|it its IH]; intros ks Hnd; simpl.
  - split; [exact Hnd|]. intros k. split; [intros H; left; exact H | intros [H|[]]; exact H].
  - destruct (IH (addKey (key it) ks) (addKey_NoDup _ _ Hnd)) as [Hnd' Hin].
    split; [exact Hnd'|]. intros k. rewrite Hin, addKey_In.
    split.
    + intros [[->|H]|H]; [right; left; reflexivity | left; exact H | right; right; exact H].
    + intros [H|[H|H]]; [left; right; exact H | left; left; symmetry; exact H | right; exact H].
Qed.

(** X5: the record handed to the platform clipboard and the snapshot built
    from one remote payload have the same keys in the same order, one per
    distinct MIME type of the payload and no key twice. *)
Theorem clipboardData_records_keys (data : ClipboardData) (its : list ClipboardItem) :
  items data = Some its ->
  exists snapshot record,
    clipboardDataToClipboardItemsRecord data = Some snapshot /\
    clipboardDataToRecord data = Some record /\
    map fst record = map fst snapshot /\
    NoDup (map fst snapshot) /\
    (forall k, In k (map fst snapshot) <-> In k (map mimeType its)).
Proof.
  intros Hits. exists (itemsRecord its), (blobsRecord its).
  rewrite clipboardDataToClipboardItemsRecord_items, clipboardDataToRecord_items, Hits.
  split; [reflexivity|]. split; [reflexivity|].
  unfold itemsRecord, blobsRecord.
  rewrite (fold_recSet_keys mimeType value),
    (fold_recSet_keys mimeType (fun it => newBlob (value it) (mimeType it))).
  destruct (fold_addKey_facts mimeType its [] (NoDup_nil _)) as [Hnd Hin].
  split; [reflexivity|]. split; [exact Hnd|].
  intros k. rewrite (Hin k). simpl. split; [intros [[]|H]; exact H | intros H; right; exact H].
Qed.

Lemma clipboardData_records_keys_witness :
  exists snapshot record,
    clipboardDataToClipboardItemsRecord helloData = Some snapshot /\
    clipboardDataToRecord helloData = Some record /\
    map fst record = map fst snapshot /\
    NoDup (map fst snapshot) /\
    (forall k, In k (map fst snapshot)
               <-> In k (map mimeType [mkItem "text/plain" (VString "hello")])).
Proof.
  exact (clipboardData_records_keys helloData [mkItem "text/plain" (VString "hello")] eq_refl).
Defined.

(** ** The outbound payload *)

Lemma buildClipboardData_fold (vals : Rec JsValue) :
  forall cd,
    fold_left
      (fun cd kv =>
         match snd kv with
         | VString s => if startsWith (fst kv) "text/" then addText (fst kv) s cd else cd
         | VBytes b => if startsWith (fst kv) "image/" then addBinary (fst kv) b cd else cd
         end)
      vals cd
    = mkData (entries cd ++ map (fun kv => mkItem (fst kv) (snd kv)) (filter supportedEntry vals))
        (itemsThrows cd).
Proof.
  induction vals as [|[k v] vals IH]; intros cd; simpl.
  - rewrite app_nil_r. destruct cd; reflexivity.
  - rewrite IH. unfold supportedEntry. simpl.
    destruct v as [s|b]; [destruct (startsWith k "text/") | destruct (startsWith k "image/")];
      simpl; try reflexivity; rewrite <- app_assoc; reflexivity.
Qed.

Lemma buildClipboardData_filter (vals : Rec JsValue) :
  buildClipboardData vals
  = mkData (map (fun kv => mkItem (fst kv) (snd kv)) (filter supportedEntry vals)) false.
Proof. unfold buildClipboardData. rewrite buildClipboardData_fold. reflexivity. Qed.

(** X6: the payload built from a snapshot lists exactly the entries that
    are a text kind holding a string or an image kind holding bytes, in
    the order of the snapshot; every other entry is dropped, and the
    payload is empty exactly when no entry qualifies. *)
Theorem buildClipboardData_entries (vals : Rec JsValue) :
  buildClipboardData vals
  = mkData (map (fun kv => mkItem (fst kv) (snd kv)) (filter supportedEntry vals)) false /\
  (isEmpty (buildClipboardData vals) = true <-> filter supportedEntry vals = []).
Proof.
  pose proof (buildClipboardData_filter vals) as H.
  split; [exact H|]. rewrite H. unfold isEmpty. simpl.
  destruct (filter supportedEntry vals); simpl; split; intros E;
    try reflexivity; discriminate.
Qed.

Lemma recSet_fresh {V : Type} (k : string) (v : V) (r : Rec V) :
  ~ In k (map fst r) -> recSet k v r = r ++ [(k, v)].
Proof.
  induction r as [|[k' v'] r IH]; simpl; intros Hnot; [reflexivity|].
  destruct (String.eqb k' k) eqn:E.
  - apply String.eqb_eq in E. exfalso. apply Hnot. left. exact E.
  - rewrite IH; [reflexivity|]. intros H. apply Hnot. right. exact H.
Qed.

Lemma itemsRecord_distinct (its : list ClipboardItem) :
  forall acc,
    NoDup (map fst acc ++ map mimeType its) ->
    fold_left (fun result item => recSet (mimeType item) (value item) result) its acc
    = acc ++ map (fun it => (mimeType it, value it)) its.
Proof.
  induction its as [|it its IH]; intros acc Hnd; simpl.
  - rewrite app_nil_r. reflexivity.
  - rewrite recSet_fresh.
    + rewrite IH.
      * rewrite <- app_assoc. reflexivity.
      * rewrite map_app. simpl. rewrite <- app_assoc. exact Hnd.
    + simpl in Hnd. apply NoDup_remove_2 in Hnd. intros H. apply Hnd.
      apply in_or_app. left. exact H.
Qed.

(** X7: a payload whose items have pairwise distinct MIME types, each a
    text kind with a string or an image kind with bytes, survives the round
    trip through the snapshot: building the outbound payload from its
    snapshot gives the payload back, items in the same order. *)
Theorem buildClipboardData_of_snapshot (data : ClipboardData) :
  itemsThrows data = false ->
  NoDup (map mimeType (entries data)) ->
  forallb (fun it => supportedEntry (mimeType it, value it)) (entries data) = true ->
  option_map buildClipboardData (clipboardDataToClipboardItemsRecord data) = Some data.
Proof.
  intros Hthrow Hnd Hall.
  rewrite clipboardDataToClipboardItemsRecord_items, (items_entries data Hthrow). simpl.
  f_equal. unfold itemsRecord. rewrite (itemsRecord_distinct (entries data) [] Hnd). simpl.
  rewrite buildClipboardData_filter.
  destruct data as [its throws]. simpl in *. subst throws. f_equal.
  clear Hnd. induction its as [|it its IH]; simpl in *; [reflexivity|].
  apply andb_true_iff in Hall. destruct Hall as [Hit Hrest].
  rewrite Hit. simpl. rewrite (IH Hrest). destruct it; reflexivity.
Qed.

Lemma buildClipboardData_of_snapshot_witness :
  option_map buildClipboardData
    (clipboardDataToClipboardItemsRecord
       (mkData [mkItem "text/plain" (VString "a"); mkItem "image/png" (VBytes [x89]%byte)]
          false))
  = Some (mkData [mkItem "text/plain" (VString "a"); mkItem "image/png" (VBytes [x89]%byte)]
            false).
Proof.
  refine (buildClipboardData_of_snapshot
            (mkData [mkItem "text/plain" (VString "a"); mkItem "image/png" (VBytes [x89]%byte)]
               false) eq_refl _ eq_refl).
  simpl. repeat constructor; simpl; intuition discriminate.
Defined.

(** ** The polling loop, continued *)

(** What the [try] block never touches. *)
Lemma monitorTry_frame (read : ReadResult) (st : Component) :
  hasFocus (monitorTry read st) = hasFocus st /\
  runWhenFocusedQueue (monitorTry read st) = runWhenFocusedQueue st /\
  lastReceivedClipboardData (vars (monitorTry read st)) = lastReceivedClipboardData (vars st) /\
  componentDestroyed (vars (monitorTry read st)) = componentDestroyed (vars st) /\
  monitorTimeouts (vars (monitorTry read st)) = monitorTimeouts (vars st) /\
  clipboardWrites (vars (monitorTry read st)) = clipboardWrites (vars st).
Proof.
  unfold monitorTry, monitorSend, monitorCatch.
  destruct (hasFocus st) eqn:Hf; simpl; [|repeat split; exact Hf].
  destruct read as [err|[|item more]]; simpl;
    [repeat split; exact Hf | repeat split; exact Hf |].
  destruct (negb (existsb eligible (types item))); simpl; [repeat split; exact Hf|].
  destruct (snd (monitorKinds _ _ _ _)); simpl; [repeat split|].
  destruct (sameValue _); simpl; [repeat split|].
  destruct (negb (isEmpty _)); simpl; repeat split.
Qed.

(** What the [try] block sends: nothing, or one payload, which is not
    empty, is built from the snapshot the block leaves and becomes the
    last-sent payload. *)
Lemma monitorTry_sends (read : ReadResult) (st : Component) :
  (clipboardChanged (vars (monitorTry read st)) = clipboardChanged (vars st) /\
   lastSentClipboardData (vars (monitorTry read st)) = lastSentClipboardData (vars st)) \/
  (clipboardChanged (vars (monitorTry read st))
   = clipboardChanged (vars st)
     ++ [buildClipboardData (lastClientClipboardItems (vars (monitorTry read st)))] /\
   isEmpty (buildClipboardData (lastClientClipboardItems (vars (monitorTry read st)))) = false /\
   lastSentClipboardData (vars (monitorTry read st))
   = Some (buildClipboardData (lastClientClipboardItems (vars (monitorTry read st))))).
Proof.
  unfold monitorTry, monitorCatch.
  destruct (hasFocus st); simpl; [|left; split; reflexivity].
  destruct read as [err|[|item more]]; simpl; try (left; split; reflexivity).
  destruct (negb (existsb eligible (types item))); simpl; [left; split; reflexivity|].
  destruct (snd (monitorKinds _ _ _ _)); simpl; [left; split; reflexivity|].
  destruct (sameValue _); simpl; [left; split; reflexivity|].
  unfold monitorSend. simpl.
  destruct (isEmpty (buildClipboardData _)) eqn:E; simpl.
  - left. split; reflexivity.
  - right. repeat split. exact E.
Qed.

Lemma monitorFinally_frame (st : Component) :
  lastSentClipboardData (vars (monitorFinally st)) = lastSentClipboardData (vars st) /\
  componentDestroyed (vars (monitorFinally st)) = componentDestroyed (vars st) /\
  runWhenFocusedQueue (monitorFinally st) = runWhenFocusedQueue st /\
  clipboardWrites (vars (monitorFinally st)) = clipboardWrites (vars st) /\
  monitorTimeouts (vars (monitorFinally st))
  = if componentDestroyed (vars st) then monitorTimeouts (vars st)
    else S (monitorTimeouts (vars st)).
Proof.
  unfold monitorFinally. destruct (componentDestroyed (vars st)) eqn:E; simpl;
    repeat split; exact E.
Qed.

(** X8: a polling tick hands at most one payload to the remote module.  A
    payload that is sent is never empty, is the one built from the client
    snapshot the tick leaves, and becomes the last-sent payload; when
    nothing is sent the last-sent payload is unchanged. *)
Theorem onMonitorClipboard_sends_at_most_one (read : ReadResult) (st : Component) :
  (clipboardChanged (vars (onMonitorClipboard read st)) = clipboardChanged (vars st) /\
   lastSentClipboardData (vars (onMonitorClipboard read st)) = lastSentClipboardData (vars st)) \/
  (clipboardChanged (vars (onMonitorClipboard read st))
   = clipboardChanged (vars st)
     ++ [buildClipboardData (lastClientClipboardItems (vars (onMonitorClipboard read st)))] /\
   isEmpty (buildClipboardData (lastClientClipboardItems (vars (onMonitorClipboard read st))))
   = false /\
   lastSentClipboardData (vars (onMonitorClipboard read st))
   = Some (buildClipboardData (lastClientClipboardItems (vars (onMonitorClipboard read st))))).
Proof.
  unfold onMonitorClipboard.
  destruct (monitorFinally_vars (monitorTry read st)) as (-> & _ & -> & _).
  destruct (monitorFinally_frame (monitorTry read st)) as (-> & _).
  apply monitorTry_sends.
Qed.

Lemma onMonitorClipboard_frame (read : ReadResult) (st : Component) :
  hasFocus (onMonitorClipboard read st) = hasFocus st /\
  lastReceivedClipboardData (vars (onMonitorClipboard read st))
  = lastReceivedClipboardData (vars st) /\
  componentDestroyed (vars (onMonitorClipboard read st)) = componentDestroyed (vars st) /\
  monitorTimeouts (vars (onMonitorClipboard read st))
  = if componentDestroyed (vars st) then monitorTimeouts (vars st)
    else S (monitorTimeouts (vars st)).
Proof.
  unfold onMonitorClipboard.
  destruct (monitorFinally_vars (monitorTry read st)) as (_ & -> & _ & ->).
  destruct (monitorFinally_frame (monitorTry read st)) as (_ & -> & _ & _ & ->).
  destruct (monitorTry_frame read st) as (-> & _ & -> & -> & -> & _).
  repeat split.
Qed.

(** X9: every tick reschedules the next one exactly once, whatever the
    tick did, unless the component has been destroyed; no tick changes the
    destroyed flag, so after [onDestroy] no tick reschedules any more. *)
Theorem monitorRun_reschedules (reads : list ReadResult) (st : Component) :
  componentDestroyed (vars (monitorRun reads st)) = componentDestroyed (vars st) /\
  monitorTimeouts (vars (monitorRun reads st))
  = (if componentDestroyed (vars st) then monitorTimeouts (vars st)
     else monitorTimeouts (vars st) + length reads) /\
  monitorTimeouts (vars (monitorRun reads (onDestroy st))) = monitorTimeouts (vars st).
Proof.
  assert (H : forall rs s,
             componentDestroyed (vars (monitorRun rs s)) = componentDestroyed (vars s) /\
             monitorTimeouts (vars (monitorRun rs s))
             = (if componentDestroyed (vars s) then monitorTimeouts (vars s)
                else monitorTimeouts (vars s) + length rs)).
  { induction rs as [|r rs IH]; intros s.
    - simpl. split; [reflexivity|]. destruct (componentDestroyed (vars s)); lia.
    - change (monitorRun (r :: rs) s) with (monitorRun rs (onMonitorClipboard r s)).
      destruct (IH (onMonitorClipboard r s)) as [Hd Ht].
      destruct (onMonitorClipboard_frame r s) as (_ & _ & Hd' & Ht').
      rewrite Hd, Ht, Hd', Ht'. split; [reflexivity|].
      destruct (componentDestroyed (vars s)); simpl; lia. }
  destruct (H reads st) as [Hd Ht]. split; [exact Hd|]. split; [exact Ht|].
  destruct (H reads (onDestroy st)) as [_ Ht']. exact Ht'.
Qed.

(** ** Re-sending on a force update *)

Lemma last_snoc_some {T : Type} (l : list T) (d : T) :
  last (map Some (l ++ [d])) None = Some d.
Proof. rewrite map_app. simpl. apply last_last. Qed.

Lemma onRemoteClipboardChanged_frame (data : ClipboardData) (st : Component) :
  lastSentClipboardData (vars (onRemoteClipboardChanged data st))
  = lastSentClipboardData (vars st) /\
  clipboardChanged (vars (onRemoteClipboardChanged data st)) = clipboardChanged (vars st) /\
  lastClientClipboardItems (vars (onRemoteClipboardChanged data st))
  = lastClientClipboardItems (vars st).
Proof.
  unfold onRemoteClipboardChanged, runWhenWindowFocused, callPending.
  destruct (items data); [|repeat split].
  destruct (clipboardDataToRecord data); [|repeat split].
  destruct (hasFocus st); simpl; [|repeat split].
  destruct (clipboardDataToClipboardItemsRecord data); simpl; repeat split.
Qed.

Lemma callPending_frame (fn : Pending) (st : Component) :
  lastSentClipboardData (vars (completionState (callPending fn st)))
  = lastSentClipboardData (vars st) /\
  clipboardChanged (vars (completionState (callPending fn st))) = clipboardChanged (vars st).
Proof.
  destruct fn as [data item]. unfold callPending.
  destruct (clipboardDataToClipboardItemsRecord data); simpl; split; reflexivity.
Qed.

Lemma focusEventHandler_callPending_frame (fuel : nat) :
  forall (st : Component) c,
    snd (focusEventHandler callPending fuel st) = Some c ->
    lastSentClipboardData (vars (completionState c)) = lastSentClipboardData (vars st) /\
    clipboardChanged (vars (completionState c)) = clipboardChanged (vars st).
Proof.
  induction fuel as [|fuel IH]; intros st c; simpl.
  - destruct (runWhenFocusedQueue st); simpl; intros H; inversion H; subst.
    split; reflexivity.
  - destruct (runWhenFocusedQueue st) as [|fn rest]; simpl.
    + intros H; inversion H; subst. split; reflexivity.
    + pose proof (callPending_frame fn (withQueue rest st)) as Hcall.
      destruct (callPending fn (withQueue rest st)) as [st1|e st1]; simpl in *.
      * intros H. destruct (IH st1 c H) as [H1 H2].
        destruct Hcall as [H3 H4]. rewrite H1, H2, H3, H4. split; reflexivity.
      * intros H; inversion H; subst. exact Hcall.
Qed.

Lemma onFocus_frame (st : Component) :
  lastSentClipboardData (vars (onFocus st)) = lastSentClipboardData (vars st) /\
  clipboardChanged (vars (onFocus st)) = clipboardChanged (vars st).
Proof.
  unfold onFocus.
  destruct (snd (focusEventHandler callPending (length (runWhenFocusedQueue st)) st))
    as [c|] eqn:E; [|split; reflexivity].
  exact (focusEventHandler_callPending_frame _ st c E).
Qed.

Lemma syncStep_lastSent (st : Component) (i : SyncInput) :
  lastSentClipboardData (vars st) = last (map Some (clipboardChanged (vars st))) None ->
  lastSentClipboardData (vars (syncStep st i))
  = last (map Some (clipboardChanged (vars (syncStep st i)))) None.
Proof.
  intros Inv. destruct i as [read|data|b| |]; simpl.
  - unfold onMonitorClipboard.
    destruct (monitorFinally_vars (monitorTry read st)) as (_ & _ & -> & _).
    destruct (monitorFinally_frame (monitorTry read st)) as (-> & _).
    destruct (monitorTry_sends read st) as [[-> ->]|(-> & _ & ->)];
      [exact Inv | rewrite last_snoc_some; reflexivity].
  - destruct (onRemoteClipboardChanged_frame data st) as (-> & -> & _). exact Inv.
  - exact Inv.
  - destruct (onFocus_frame st) as (-> & ->). exact Inv.
  - exact Inv.
Qed.

(** X10: from mounting on, whatever ticks, remote changes, focus changes
    and focus events occur, a force-update request re-sends the payload
    most recently handed to the remote module, and sends the explicit
    empty notification when none has been sent yet. *)
Theorem onForceClipboardUpdate_resends_latest (inputs : list SyncInput) (focus : bool) :
  onForceClipboardUpdate (syncRun inputs (mounted focus))
  = match last (map Some (clipboardChanged (vars (syncRun inputs (mounted focus))))) None with
    | Some data => ResendChanged data
    | None => SendEmpty
    end.
Proof.
  unfold onForceClipboardUpdate.
  assert (H : forall ins st,
             lastSentClipboardData (vars st)
             = last (map Some (clipboardChanged (vars st))) None ->
             lastSentClipboardData (vars (syncRun ins st))
             = last (map Some (clipboardChanged (vars (syncRun ins st)))) None).
  { induction ins as [|i ins IH]; intros st Inv; [exact Inv|].
    change (syncRun (i :: ins) st) with (syncRun ins (syncStep st i)).
    apply IH. apply syncStep_lastSent. exact Inv. }
  rewrite (H inputs (mounted focus) eq_refl). reflexivity.
Qed.

(** ** What a tick leaves in the client snapshot *)

Lemma observe_other (item : ReadItem) (kinds : list string) :
  forall acc k, ~ In k kinds -> recGet (observe item kinds acc) k = recGet acc k.
Proof.
  induction kinds as [|kind rest IH]; intros acc k Hnot; simpl; [reflexivity|].
  destruct (getType item kind) as [blob|]; [|reflexivity].
  rewrite IH by (intros H; apply Hnot; right; exact H).
  apply recGet_recSet_other. intros ->. apply Hnot. left. reflexivity.
Qed.

Lemma observe_lookup (item : ReadItem) (kinds : list string) :
  (forall k, In k kinds -> getType item k <> None) ->
  forall acc k blob,
    In k kinds ->
    getType item k = Some blob ->
    recGet (observe item kinds acc) k = Some (readValue k blob).
Proof.
  induction kinds as [|kind rest IH]; intros Hres acc k blob Hin Hget; [destruct Hin|].
  simpl. destruct (getType item kind) as [b|] eqn:Hk;
    [|exfalso; exact (Hres kind (or_introl eq_refl) Hk)].
  destruct (in_dec string_dec k rest) as [Hrest|Hrest].
  - apply IH; try assumption. intros k' Hk'. apply Hres. right. exact Hk'.
  - destruct Hin as [->|Hin]; [|contradiction].
    rewrite (observe_other item rest _ k Hrest), recGet_recSet_same.
    rewrite Hk in Hget. inversion Hget; subst. reflexivity.
Qed.

(** An iteration that leaves [sameValue] set found it set and leaves the
    kind it read with the value it read. *)
Lemma monitorKind_settled (item : ReadItem) (received : Rec JsValue)
      (kind : string) (blob : Blob) (p p1 : Pass) :
  getType item kind = Some blob ->
  monitorKind item received kind p = Some p1 ->
  sameValue p1 = true ->
  sameValue p = true /\ recGet (client p1) kind = Some (readValue kind blob).
Proof.
  intros Hget H Hsame. unfold monitorKind in H. rewrite Hget in H.
  destruct (is_equal _ (recGet (client p) kind) _) eqn:Hprev; simpl in H.
  - inversion H; subst; simpl in *. split; [exact Hsame|].
    apply is_equal_spec. exact Hprev.
  - destruct (is_equal _ (recGet received kind) _) eqn:Hrecv.
    + apply is_equal_spec in Hrecv. rewrite Hrecv in H.
      inversion H; subst; simpl in *. split; [exact Hsame|]. apply recGet_recSet_same.
    + inversion H; subst; simpl in *. discriminate.
Qed.

Lemma monitorKinds_sameValue (item : ReadItem) (received : Rec JsValue) (kinds : list string) :
  forall p, sameValue (fst (monitorKinds item received kinds p)) = true -> sameValue p = true.
Proof.
  induction kinds as [|kind rest IH]; intros p H; simpl in H; [exact H|].
  destruct (monitorKind item received kind p) as [p1|] eqn:E; [|exact H].
  pose proof (IH p1 H) as H1. unfold monitorKind in E.
  destruct (getType item kind) as [blob|] eqn:Hget; [|discriminate].
  exact (proj1 (monitorKind_settled _ _ _ _ _ _ Hget
                  ltac:(unfold monitorKind; rewrite Hget; exact E) H1)).
Qed.

(** A loop that ends with [sameValue] still set leaves every kind it read
    with the value it read. *)
Lemma monitorKinds_settled (item : ReadItem) (received : Rec JsValue) (kinds : list string) :
  (forall k, In k kinds -> getType item k <> None) ->
  forall p k blob,
    sameValue (fst (monitorKinds item received kinds p)) = true ->
    In k kinds ->
    getType item k = Some blob ->
    recGet (client (fst (monitorKinds item received kinds p))) k = Some (readValue k blob).
Proof.
  induction kinds as [|kind rest IH]; intros Hres p k blob Hsame Hin Hget; [destruct Hin|].
  assert (Hres' : forall k', In k' rest -> getType item k' <> None)
    by (intros k' Hk'; apply Hres; right; exact Hk').
  simpl in *. destruct (monitorKind item received kind p) as [p1|] eqn:E.
  - destruct (in_dec string_dec k rest) as [Hrest|Hrest].
    + apply IH; assumption.
    + destruct Hin as [->|Hin]; [|contradiction].
      pose proof (monitorKinds_sameValue item received rest p1 Hsame) as H1.
      destruct (monitorKind_settled _ _ _ _ _ _ Hget E H1) as [_ Hk].
      destruct (monitorKinds_lookup item received rest p1 k) as [H|[Hin' _]];
        [rewrite H; exact Hk | contradiction].
  - exfalso. unfold monitorKind in E.
    destruct (getType item kind) eqn:Hk; [|exact (Hres kind (or_introl eq_refl) Hk)].
    destruct (negb _); [destruct (is_equal _ (recGet received kind) _);
      [destruct (recGet received kind)|]|]; discriminate.
Qed.

(** After a tick that ran the comparison with every read resolving, the
    client snapshot holds, for each kind read, the value read. *)
Lemma onMonitorClipboard_settles (item : ReadItem) (more : list ReadItem) (st : Component) :
  hasFocus st = true ->
  existsb eligible (types item) = true ->
  (forall k, In k (types item) -> getType item k <> None) ->
  forall k blob,
    In k (types item) ->
    getType item k = Some blob ->
    recGet (lastClientClipboardItems
              (vars (onMonitorClipboard (ReadResolved (item :: more)) st))) k
    = Some (readValue k blob).
Proof.
  intros Hf Helig Hres k blob Hin Hget. unfold onMonitorClipboard.
  destruct (monitorFinally_vars (monitorTry (ReadResolved (item :: more)) st)) as (-> & _).
  unfold monitorTry. rewrite Hf. simpl. rewrite Helig. simpl.
  rewrite (monitorKinds_resolves item _ (types item) Hres).
  destruct (sameValue (fst (monitorKinds item (lastReceivedClipboardData (vars st))
                              (types item)
                              (mkPass (lastClientClipboardItems (vars st)) [] true))))
    eqn:Hsame; simpl.
  - apply monitorKinds_settled; assumption.
  - assert (Hvals : lastClientClipboardItems
                      (vars (monitorSend
                               (values (fst (monitorKinds item
                                               (lastReceivedClipboardData (vars st))
                                               (types item)
                                               (mkPass (lastClientClipboardItems (vars st))
                                                  [] true))))
                               (mkGate true (runWhenFocusedQueue st)
                                  (setLastClient
                                     (client (fst (monitorKinds item
                                                     (lastReceivedClipboardData (vars st))
                                                     (types item)
                                                     (mkPass (lastClientClipboardItems (vars st))
                                                        [] true))))
                                     (vars st)))))
                    = observe item (types item) []).
    { unfold monitorSend. simpl. destruct (negb _); simpl; apply monitorKinds_values. }
    rewrite Hvals. apply observe_lookup; assumption.
Qed.

Lemma monitorKinds_rejects (item : ReadItem) (received : Rec JsValue) (kinds : list string) :
  forallb (resolved item) kinds = false ->
  forall p, exists err, snd (monitorKinds item received kinds p) = Some err.
Proof.
  induction kinds as [|kind rest IH]; simpl; intros H p; [discriminate|].
  unfold resolved at 1 in H. unfold monitorKind.
  destruct (getType item kind) as [blob|]; simpl in H; [|eexists; reflexivity].
  destruct (negb _); [destruct (is_equal _ (recGet received kind) _);
    [destruct (recGet received kind)|]|]; apply IH; exact H.
Qed.

(** X11: observing the same clipboard content twice in a row never sends
    twice: whatever the first of two ticks with the same read did, the
    second hands nothing to the remote module. *)
Theorem onMonitorClipboard_same_read_is_quiet (read : ReadResult) (st : Component) :
  clipboardChanged (vars (onMonitorClipboard read (onMonitorClipboard read st)))
  = clipboardChanged (vars (onMonitorClipboard read st)).
Proof.
  destruct (onMonitorClipboard_frame read st) as (Hf & _).
  destruct read as [err|[|item more]]; try (apply onMonitorClipboard_quiet; exact I).
  destruct (hasFocus st) eqn:Hfocus.
  - destruct (existsb eligible (types item)) eqn:Helig.
    + destruct (forallb (resolved item) (types item)) eqn:Hres.
      * apply onMonitorClipboard_quiet. simpl. intros kind blob Hin Hget Hne.
        exfalso. apply Hne.
        apply onMonitorClipboard_settles; try assumption.
        intros k Hk Hnone. rewrite forallb_forall in Hres.
        specialize (Hres k Hk). unfold resolved in Hres. rewrite Hnone in Hres.
        discriminate.
      * set (s1 := onMonitorClipboard (ReadResolved (item :: more)) st) in *.
        unfold onMonitorClipboard at 1.
        destruct (monitorFinally_vars (monitorTry (ReadResolved (item :: more)) s1))
          as (_ & _ & -> & _).
        unfold monitorTry. rewrite Hf. simpl. rewrite Helig. simpl.
        destruct (monitorKinds_rejects item (lastReceivedClipboardData (vars s1))
                    (types item) Hres
                    (mkPass (lastClientClipboardItems (vars s1)) [] true)) as (e & ->).
        reflexivity.
    + set (s1 := onMonitorClipboard (ReadResolved (item :: more)) st) in *.
      unfold onMonitorClipboard at 1.
      destruct (monitorFinally_vars (monitorTry (ReadResolved (item :: more)) s1))
        as (_ & _ & -> & _).
      unfold monitorTry. rewrite Hf. simpl. rewrite Helig. reflexivity.
  - set (s1 := onMonitorClipboard (ReadResolved (item :: more)) st) in *.
    unfold onMonitorClipboard at 1.
    destruct (monitorFinally_vars (monitorTry (ReadResolved (item :: more)) s1))
      as (_ & _ & -> & _).
    unfold monitorTry. rewrite Hf. reflexivity.
Qed.

(** ** Reading back what the remote side wrote *)




(** ** The Firefox bridge, continued *)

Lemma isPaste_not_isCopy (evt : KeyboardEvent) :
  isPasteKeyboardEvent evt = true -> isCopyKeyboardEvent evt = false.
Proof.
  unfold isPasteKeyboardEvent, isCopyKeyboardEvent. intros H.
  apply orb_true_iff in H. destruct H as [H|H].
  - apply andb_true_iff in H. destruct H as [_ H]. apply String.eqb_eq in H.
    rewrite H. destruct (ctrlKey evt); reflexivity.
  - apply String.eqb_eq in H. rewrite H. destruct (ctrlKey evt); reflexivity.
Qed.

(** X13: a paste key event is never a copy or cut key event, so sending it
    on, at once or when the buffer is replayed, only forwards it to the
    remote session: no retry-wait chain starts, nothing is written to the
    clipboard and the pending payload is left alone. *)
Theorem keyboardEvent_paste_only_sends (evt : KeyboardEvent) (st : Bridge) :
  isPasteKeyboardEvent evt = true ->
  isCopyKeyboardEvent evt = false /\
  keyboardEvent evt st = sendKeyboardEvent evt st.
Proof.
  intros Hp. pose proof (isPaste_not_isCopy evt Hp) as Hc. split; [exact Hc|].
  unfold keyboardEvent. rewrite Hc, andb_false_r. reflexivity.
Qed.

Lemma keyboardEvent_paste_only_sends_witness :
  isCopyKeyboardEvent (mkKey true "KeyV") = false /\
  keyboardEvent (mkKey true "KeyV") firefoxBridge
  = sendKeyboardEvent (mkKey true "KeyV") firefoxBridge.
Proof.
  exact (keyboardEvent_paste_only_sends (mkKey true "KeyV") firefoxBridge eq_refl).
Defined.

Lemma writeFirstTextPlain_first (pre post : list ClipboardItem) (it : ClipboardItem)
      (st : Bridge) :
  existsb (fun item => String.eqb (mimeType item) "text/plain") pre = false ->
  mimeType it = "text/plain" ->
  writeFirstTextPlain (pre ++ it :: post) st
  = match value it with
    | VString v => writeText v st
    | VBytes _ => st
    end.
Proof.
  intros Hpre Hit. induction pre as [|p pre IH]; simpl in *.
  - rewrite Hit. reflexivity.
  - apply orb_false_iff in Hpre. destruct Hpre as [Hp Hpre].
    rewrite Hp. exact (IH Hpre).
Qed.

(** X14: when the wait function finds a payload pending on a Firefox with
    clipboard write access, only the first [text/plain] item of the
    payload counts: its value is written when it is a string, and nothing
    is written when it is not, whatever items follow; the holder is empty
    afterwards. *)
Theorem ffWaitForRemoteClipboardDataSet_first_text_plain
        (st : Bridge) (data : ClipboardData) (pre post : list ClipboardItem)
        (it : ClipboardItem) :
  ffRemoteClipboardData st = Some data ->
  items data = Some (pre ++ it :: post) ->
  existsb (fun item => String.eqb (mimeType item) "text/plain") pre = false ->
  mimeType it = "text/plain" ->
  browserHasClipboardAccess (navigator st) = true ->
  writeTextCalls (ffWaitForRemoteClipboardDataSet st)
  = writeTextCalls st ++ match value it with VString v => [v] | VBytes _ => [] end /\
  ffRemoteClipboardData (ffWaitForRemoteClipboardDataSet st) = None.
Proof.
  intros Hdata Hits Hpre Hit Hacc. unfold ffWaitForRemoteClipboardDataSet.
  rewrite Hdata, Hits, (writeFirstTextPlain_first pre post it _ Hpre Hit).
  destruct (value it) as [v|b]; simpl.
  - unfold writeText. simpl. rewrite Hacc. simpl. split; reflexivity.
  - rewrite app_nil_r. split; reflexivity.
Qed.

Lemma ffWaitForRemoteClipboardDataSet_first_text_plain_witness :
  writeTextCalls
    (ffWaitForRemoteClipboardDataSet
       (setRemoteData
          (Some (mkData ([mkItem "text/html" (VString "<b>a</b>")]
                         ++ mkItem "text/plain" (VString "a")
                         :: [mkItem "text/plain" (VString "b")]) false))
          firefoxBridge))
  = writeTextCalls
      (setRemoteData
         (Some (mkData ([mkItem "text/html" (VString "<b>a</b>")]
                        ++ mkItem "text/plain" (VString "a")
                        :: [mkItem "text/plain" (VString "b")]) false))
         firefoxBridge)
    ++ match value (mkItem "text/plain" (VString "a")) with
       | VString v => [v]
       | VBytes _ => []
       end.
Proof.
  exact (proj1 (ffWaitForRemoteClipboardDataSet_first_text_plain
                  (setRemoteData
                     (Some (mkData ([mkItem "text/html" (VString "<b>a</b>")]
                                    ++ mkItem "text/plain" (VString "a")
                                    :: [mkItem "text/plain" (VString "b")]) false))
                     firefoxBridge)
                  (mkData ([mkItem "text/html" (VString "<b>a</b>")]
                           ++ mkItem "text/plain" (VString "a")
                           :: [mkItem "text/plain" (VString "b")]) false)
                  [mkItem "text/html" (VString "<b>a</b>")]
                  [mkItem "text/plain" (VString "b")]
                  (mkItem "text/plain" (VString "a"))
                  eq_refl eq_refl eq_refl eq_refl eq_refl)).
Defined.

(** ** Key events across a whole run of the bridge *)

Lemma capturedKeys_cons (i : BridgeInput) (rest : list BridgeInput) :
  capturedKeys (i :: rest) = capturedKeys [i] ++ capturedKeys rest.
Proof. destruct i as [[|] evt| | |]; reflexivity. Qed.

Lemma fire_wait_frame (st : Bridge) :
  ffPostponeKeyboardEvents (fire WaitForRemoteClipboardDataSet st)
  = ffPostponeKeyboardEvents st /\
  ffDelayedKeyboardEvents (fire WaitForRemoteClipboardDataSet st)
  = ffDelayedKeyboardEvents st /\
  sentKeyboardEvents (fire WaitForRemoteClipboardDataSet st) = sentKeyboardEvents st.
Proof.
  unfold fire.
  destruct (removeTimeout WaitForRemoteClipboardDataSet (timeouts st)) as [l|];
    [|repeat split].
  destruct (ffWait_frame (setTimeouts l st)) as (_ & Hp & Hd & Hs).
  rewrite Hp, Hd, Hs. repeat split.
Qed.

Lemma fire_simulate_replays (st : Bridge) :
  fire SimulateDelayedKeyEvents st = st \/
  (sentKeyboardEvents (fire SimulateDelayedKeyEvents st)
   = sentKeyboardEvents st ++ ffDelayedKeyboardEvents st /\
   ffDelayedKeyboardEvents (fire SimulateDelayedKeyEvents st) = [] /\
   ffPostponeKeyboardEvents (fire SimulateDelayedKeyEvents st) = false).
Proof.
  unfold fire.
  destruct (removeTimeout SimulateDelayedKeyEvents (timeouts st)) as [l|];
    [right | left; reflexivity].
  apply (ffSimulateDelayedKeyEvents_replays (setTimeouts l st)).
Qed.

Lemma ffOnRemoteClipboardChanged_frame (data : ClipboardData) (st : Bridge) :
  ffPostponeKeyboardEvents (ffOnRemoteClipboardChanged data st) = ffPostponeKeyboardEvents st /\
  ffDelayedKeyboardEvents (ffOnRemoteClipboardChanged data st) = ffDelayedKeyboardEvents st /\
  sentKeyboardEvents (ffOnRemoteClipboardChanged data st) = sentKeyboardEvents st /\
  timeouts (ffOnRemoteClipboardChanged data st) = timeouts st.
Proof. unfold ffOnRemoteClipboardChanged. destruct (items data); repeat split. Qed.

(** One input keeps the buffer empty outside postponement and neither
    loses, repeats nor reorders a key event. *)
Lemma bridgeStep_conserves (st : Bridge) (i : BridgeInput) :
  (ffPostponeKeyboardEvents st = false -> ffDelayedKeyboardEvents st = []) ->
  (ffPostponeKeyboardEvents (bridgeStep st i) = false ->
   ffDelayedKeyboardEvents (bridgeStep st i) = []) /\
  sentKeyboardEvents (bridgeStep st i) ++ ffDelayedKeyboardEvents (bridgeStep st i)
  = sentKeyboardEvents st ++ ffDelayedKeyboardEvents st ++ capturedKeys [i].
Proof.
  intros Inv. destruct i as [[|] evt| |cb|data]; unfold bridgeStep; cbn [capturedKeys].
  - unfold captureKeys. destruct (ffPostponeKeyboardEvents st) eqn:Hp.
    + simpl. rewrite Hp. split; [discriminate | reflexivity].
    + destruct (isFirefox (navigator st) && isPasteKeyboardEvent evt).
      * simpl. rewrite (Inv eq_refl). split; [discriminate | reflexivity].
      * destruct (keyboardEvent_frame evt st) as (_ & Hp' & Hd' & Hs').
        rewrite Hd', Hs', (Inv eq_refl), app_nil_r.
        split; [intros _; reflexivity | reflexivity].
  - rewrite app_nil_r. split; [exact Inv | reflexivity].
  - unfold ffOnRemoteReceivedFormatList.
    destruct (ffSimulateDelayedKeyEvents_replays st) as (Hs & Hd & _).
    rewrite Hs, Hd, !app_nil_r. split; reflexivity.
  - destruct cb.
    + destruct (fire_wait_frame st) as (Hp & Hd & Hs).
      rewrite Hp, Hd, Hs, app_nil_r. split; [exact Inv | reflexivity].
    + destruct (fire_simulate_replays st) as [->|(Hs & Hd & _)].
      * rewrite app_nil_r. split; [exact Inv | reflexivity].
      * rewrite Hs, Hd, !app_nil_r. split; reflexivity.
  - destruct (ffOnRemoteClipboardChanged_frame data st) as (Hp & Hd & Hs & _).
    rewrite Hp, Hd, Hs, app_nil_r. split; [exact Inv | reflexivity].
Qed.

(** X15: over any run of the bridge (key events, format-list signals,
    timeouts firing, remote clipboard changes) that starts with the buffer
    empty unless postponement is on, the key events sent to the remote
    session followed by those still buffered are exactly the ones sent or
    buffered before, followed by the key events captured during the run in
    arrival order: no key event is lost, sent twice or reordered. *)
Theorem bridgeRun_conserves_keys (inputs : list BridgeInput) (st : Bridge) :
  (ffPostponeKeyboardEvents st = false -> ffDelayedKeyboardEvents st = []) ->
  sentKeyboardEvents (bridgeRun inputs st) ++ ffDelayedKeyboardEvents (bridgeRun inputs st)
  = sentKeyboardEvents st ++ ffDelayedKeyboardEvents st ++ capturedKeys inputs.
Proof.
  revert st. induction inputs as [|i rest IH]; intros st Inv.
  - simpl. rewrite app_nil_r. reflexivity.
  - change (bridgeRun (i :: rest) st) with (bridgeRun rest (bridgeStep st i)).
    destruct (bridgeStep_conserves st i Inv) as [Inv' Hstep].
    rewrite (IH _ Inv'), capturedKeys_cons, app_assoc, Hstep, <- !app_assoc.
    reflexivity.
Qed.

Lemma bridgeRun_conserves_keys_witness :
  sentKeyboardEvents
    (bridgeRun [KeyInput true (mkKey true "KeyV"); KeyInput true (mkKey false "KeyA");
                FormatListInput; TimeoutInput SimulateDelayedKeyEvents] firefoxBridge)
  ++ ffDelayedKeyboardEvents
       (bridgeRun [KeyInput true (mkKey true "KeyV"); KeyInput true (mkKey false "KeyA");
                   FormatListInput; TimeoutInput SimulateDelayedKeyEvents] firefoxBridge)
  = sentKeyboardEvents firefoxBridge ++ ffDelayedKeyboardEvents firefoxBridge
    ++ capturedKeys [KeyInput true (mkKey true "KeyV"); KeyInput true (mkKey false "KeyA");
                     FormatListInput; TimeoutInput SimulateDelayedKeyEvents].
Proof.
  exact (bridgeRun_conserves_keys
           [KeyInput true (mkKey true "KeyV"); KeyInput true (mkKey false "KeyA");
            FormatListInput; TimeoutInput SimulateDelayedKeyEvents]
           firefoxBridge (fun _ => eq_refl)).
Defined.

Lemma removeTimeout_some (cb : Callback) (l : list (Callback * nat)) :
  existsb (fun t => callbackEqb (fst t) cb) l = true ->
  exists l', removeTimeout cb l = Some l'.
Proof.
  induction l as [|t r IH]; simpl; [discriminate|].
  destruct (callbackEqb (fst t) cb); simpl; [eexists; reflexivity|].
  intros H. destruct (IH H) as (l' & ->). eexists; reflexivity.
Qed.

Lemma removeTimeout_wait_keeps_simulate (l l' : list (Callback * nat)) :
  removeTimeout WaitForRemoteClipboardDataSet l = Some l' ->
  existsb isSimulateTimeout l' = existsb isSimulateTimeout l.
Proof.
  revert l'. induction l as [|t r IH]; simpl; intros l' H; [discriminate|].
  unfold isSimulateTimeout at 2.
  destruct t as [[|] d]; simpl in *.
  - inversion H; subst. reflexivity.
  - destruct (removeTimeout WaitForRemoteClipboardDataSet r) as [r'|]; [|discriminate].
    inversion H; subst. reflexivity.
Qed.


Lemma bridgeStep_keeps_timeout (st : Bridge) (i : BridgeInput) :
  (ffPostponeKeyboardEvents st = true -> existsb isSimulateTimeout (timeouts st) = true) ->
  ffPostponeKeyboardEvents (bridgeStep st i) = true ->
  existsb isSimulateTimeout (timeouts (bridgeStep st i)) = true.
Proof.
  intros Inv. destruct i as [[|] evt| |cb|data]; unfold bridgeStep.
  - unfold captureKeys. destruct (ffPostponeKeyboardEvents st) eqn:Hp.
    + simpl. intros _. exact (Inv eq_refl).
    + destruct (isFirefox (navigator st) && isPasteKeyboardEvent evt).
      * simpl. intros _. rewrite existsb_app. simpl. apply orb_true_r.
      * destruct (keyboardEvent_frame evt st) as (_ & Hp' & _).
        rewrite Hp', Hp. discriminate.
  - exact Inv.
  - unfold ffOnRemoteReceivedFormatList.
    destruct (ffSimulateDelayedKeyEvents_replays st) as (_ & _ & ->). discriminate.
  - destruct cb.
    + destruct (fire_wait_frame st) as (Hp & _). rewrite Hp. intros H.
      unfold fire.
      destruct (removeTimeout WaitForRemoteClipboardDataSet (timeouts st)) as [l|] eqn:E;
        [|exact (Inv H)].
      rewrite ffWait_keeps_simulate. simpl.
      rewrite (removeTimeout_wait_keeps_simulate _ _ E). exact (Inv H).
    + destruct (fire_simulate_replays st) as [->|(_ & _ & ->)]; [exact Inv | discriminate].
  - destruct (ffOnRemoteClipboardChanged_frame data st) as (Hp & _ & _ & Ht).
    rewrite Hp, Ht. exact Inv.
Qed.

(** X16: whenever key events are being postponed, a timeout of the replay
    callback is pending, and its firing sends everything buffered and ends
    the postponement: no run of the bridge can leave key events buffered
    with nothing scheduled to release them. *)
Theorem bridgeRun_postponed_has_timeout (inputs : list BridgeInput) (st : Bridge) :
  (ffPostponeKeyboardEvents st = true -> existsb isSimulateTimeout (timeouts st) = true) ->
  ffPostponeKeyboardEvents (bridgeRun inputs st) = true ->
  (exists l,
     removeTimeout SimulateDelayedKeyEvents (timeouts (bridgeRun inputs st)) = Some l) /\
  sentKeyboardEvents (fire SimulateDelayedKeyEvents (bridgeRun inputs st))
  = sentKeyboardEvents (bridgeRun inputs st) ++ ffDelayedKeyboardEvents (bridgeRun inputs st) /\
  ffDelayedKeyboardEvents (fire SimulateDelayedKeyEvents (bridgeRun inputs st)) = [] /\
  ffPostponeKeyboardEvents (fire SimulateDelayedKeyEvents (bridgeRun inputs st)) = false.
Proof.
  intros Inv Hp.
  assert (H : forall ins s,
             (ffPostponeKeyboardEvents s = true ->
              existsb isSimulateTimeout (timeouts s) = true) ->
             ffPostponeKeyboardEvents (bridgeRun ins s) = true ->
             existsb isSimulateTimeout (timeouts (bridgeRun ins s)) = true).
  { induction ins as [|i ins IH]; intros s Hs; [exact Hs|].
    change (bridgeRun (i :: ins) s) with (bridgeRun ins (bridgeStep s i)).
    apply IH. apply bridgeStep_keeps_timeout. exact Hs. }
  pose proof (removeTimeout_some SimulateDelayedKeyEvents _ (H inputs st Inv Hp)) as Hl.
  split; [exact Hl|].
  apply (release_replays CopyTimeoutElapsed). intros _. exact Hl.
Qed.

Lemma bridgeRun_postponed_has_timeout_witness :
  exists l,
    removeTimeout SimulateDelayedKeyEvents
      (timeouts (bridgeRun [KeyInput true (mkKey true "KeyV");
                            TimeoutInput WaitForRemoteClipboardDataSet;
                            KeyInput true (mkKey true "KeyC")] firefoxBridge))
    = Some l.
Proof.
  exact (proj1 (bridgeRun_postponed_has_timeout
                  [KeyInput true (mkKey true "KeyV");
                   TimeoutInput WaitForRemoteClipboardDataSet;
                   KeyInput true (mkKey true "KeyC")]
                  firefoxBridge (fun H => H) eq_refl)).
Defined.

(** ** Browsers other than Firefox *)

Lemma captureKeys_not_firefox (evt : KeyboardEvent) (st : Bridge) :
  isFirefox (navigator st) = false ->
  ffPostponeKeyboardEvents st = false ->
  captureKeys true evt st = sendKeyboardEvent evt st.
Proof.
  intros Hff Hp. unfold captureKeys, keyboardEvent. rewrite Hp, Hff. reflexivity.
Qed.

(** X17: on a browser that is not Firefox, with no postponement active,
    every captured key event goes straight to the remote session, in
    arrival order; nothing is buffered, postponement never starts, no
    timeout is scheduled, nothing is written to the clipboard and the
    pending holder and retry counter are left alone. *)
Theorem captureAll_not_firefox (evts : list KeyboardEvent) (st : Bridge) :
  isFirefox (navigator st) = false ->
  ffPostponeKeyboardEvents st = false ->
  captureAll evts st
  = mkBridge (navigator st) (ffRemoteClipboardData st) (ffRemoteClipboardDataRetriesLeft st)
      false (ffDelayedKeyboardEvents st) (writeTextCalls st)
      (sentKeyboardEvents st ++ evts) (timeouts st).
Proof.
  revert st. induction evts as [|evt rest IH]; intros st Hff Hp.
  - unfold captureAll. simpl. rewrite app_nil_r. destruct st; simpl in *; subst; reflexivity.
  - rewrite captureAll_cons, (captureKeys_not_firefox evt st Hff Hp).
    rewrite IH by assumption. simpl. rewrite <- app_assoc. reflexivity.
Qed.

Lemma captureAll_not_firefox_witness :
  captureAll [mkKey true "KeyV"; mkKey true "KeyC"]
    (mkBridge safariWithoutClipboard None 0 false [] [] [] [])
  = mkBridge (navigator (mkBridge safariWithoutClipboard None 0 false [] [] [] []))
      (ffRemoteClipboardData (mkBridge safariWithoutClipboard None 0 false [] [] [] []))
      (ffRemoteClipboardDataRetriesLeft (mkBridge safariWithoutClipboard None 0 false [] [] [] []))
      false
      (ffDelayedKeyboardEvents (mkBridge safariWithoutClipboard None 0 false [] [] [] []))
      (writeTextCalls (mkBridge safariWithoutClipboard None 0 false [] [] [] []))
      (sentKeyboardEvents (mkBridge safariWithoutClipboard None 0 false [] [] [] [])
       ++ [mkKey true "KeyV"; mkKey true "KeyC"])
      (timeouts (mkBridge safariWithoutClipboard None 0 false [] [] [] [])).
Proof.
  exact (captureAll_not_firefox [mkKey true "KeyV"; mkKey true "KeyC"]
           (mkBridge safariWithoutClipboard None 0 false [] [] [] []) eq_refl eq_refl).
Defined.

(** ** What a paste forwards *)

Lemma pasteItems_shape (its : list DataTransferItem) (d : ClipboardData) :
  In d (pasteItems its) ->
  exists it,
    In it its /\
    ((startsWith (itemType it) "text/" = true /\
      exists str, getAsString it = Some str /\
                  d = mkData [mkItem (itemType it) (VString str)] false) \/
     (startsWith (itemType it) "text/" = false /\
      startsWith (itemType it) "image/" = true /\
      exists file, getAsFile it = Some file /\
                   d = mkData [mkItem (itemType it) (VBytes file)] false)).
Proof.
  induction its as [|it rest IH]; simpl; [intros []|].
  destruct (startsWith (itemType it) "text/") eqn:Ht.
  - destruct (getAsString it) as [str|] eqn:Hs; [|intros []].
    rewrite sendIfNotEmpty_addText. intros [<-|[]].
    exists it. split; [left; reflexivity|]. left. split; [exact Ht|].
    exists str. split; [exact Hs | reflexivity].
  - destruct (startsWith (itemType it) "image/") eqn:Hi.
    + destruct (getAsFile it) as [file|] eqn:Hf.
      * rewrite sendIfNotEmpty_addBinary. intros [<-|[]].
        exists it. split; [left; reflexivity|]. right. repeat split; try assumption.
        exists file. split; [exact Hf | reflexivity].
      * intros H. destruct (IH H) as (it' & Hin & Hshape).
        exists it'. split; [right; exact Hin | exact Hshape].
    + intros H. destruct (IH H) as (it' & Hin & Hshape).
      exists it'. split; [right; exact Hin | exact Hshape].
Qed.

(** X18: whatever a paste event forwards to the remote module, it is
    forwarded on Firefox only and is a clipboard-data object with a single
    entry, taken from an item of the event's payload under that item's
    type: the string of a [text/*] item, or the file bytes of an [image/*]
    item.  Items of any other type are never forwarded. *)
Theorem ffOnPasteHandler_forwards_payload_item
        (nav : Navigator) (evt : ClipboardEvent) (d : ClipboardData) :
  In d (forwarded (ffOnPasteHandler nav evt)) ->
  isFirefox nav = true /\
  exists its it,
    clipboardData evt = Some its /\
    In it its /\
    ((startsWith (itemType it) "text/" = true /\
      exists str, getAsString it = Some str /\
                  d = mkData [mkItem (itemType it) (VString str)] false) \/
     (startsWith (itemType it) "text/" = false /\
      startsWith (itemType it) "image/" = true /\
      exists file, getAsFile it = Some file /\
                   d = mkData [mkItem (itemType it) (VBytes file)] false)).
Proof.
  unfold ffOnPasteHandler. simpl.
  destruct (isFirefox nav); simpl; [|intros []].
  destruct (clipboardData evt) as [its|]; [|intros []].
  intros H. split; [reflexivity|].
  destruct (pasteItems_shape its d H) as (it & Hin & Hshape).
  exists its, it. split; [reflexivity|]. split; assumption.
Qed.

Lemma ffOnPasteHandler_forwards_payload_item_witness :
  isFirefox firefoxWithClipboard = true /\
  exists its it,
    clipboardData (mkPaste (Some [mkTransfer "text/plain" (Some "abc") None])) = Some its /\
    In it its /\
    ((startsWith (itemType it) "text/" = true /\
      exists str, getAsString it = Some str /\
                  mkData [mkItem "text/plain" (VString "abc")] false
                  = mkData [mkItem (itemType it) (VString str)] false) \/
     (startsWith (itemType it) "text/" = false /\
      startsWith (itemType it) "image/" = true /\
      exists file, getAsFile it = Some file /\
                   mkData [mkItem "text/plain" (VString "abc")] false
                   = mkData [mkItem (itemType it) (VBytes file)] false)).
Proof.
  exact (ffOnPasteHandler_forwards_payload_item firefoxWithClipboard
           (mkPaste (Some [mkTransfer "text/plain" (Some "abc") None]))
           (mkData [mkItem "text/plain" (VString "abc")] false)
           (or_introl eq_refl)).
Defined.

(** ** Mouse buttons *)

Lemma setMouseButtonState_step (nav : Navigator) (state : MouseEvent) (isDown : bool)
      (st : Pointer) :
  mouseButtonStates (setMouseButtonState nav state isDown st)
  = mouseButtonStates st ++ [(state, isDown, true)] /\
  (isFirefox nav = false ->
   ffCnavasFocused (setMouseButtonState nav state isDown st) = ffCnavasFocused st /\
   canvasFocusCalls (setMouseButtonState nav state isDown st) = canvasFocusCalls st /\
   screenViewerBlurCalls (setMouseButtonState nav state isDown st) = screenViewerBlurCalls st) /\
  (isFirefox nav = true ->
   canvasFocusCalls (setMouseButtonState nav state isDown st)
   + screenViewerBlurCalls (setMouseButtonState nav state isDown st)
   = S (canvasFocusCalls st + screenViewerBlurCalls st) /\
   canvasFocusCalls (setMouseButtonState nav state isDown st)
   + (if ffCnavasFocused (setMouseButtonState nav state isDown st) then 0 else 1)
   = canvasFocusCalls st + (if ffCnavasFocused st then 0 else 1)).
Proof.
  unfold setMouseButtonState. destruct (isFirefox nav); simpl.
  - destruct (isDown && (button state =? 0)%Z && negb (ffCnavasFocused st)) eqn:E; simpl.
    + apply andb_true_iff in E. destruct E as [_ E]. apply negb_true_iff in E.
      rewrite E. split; [reflexivity|]. split; [discriminate|].
      intros _. split; lia.
    + split; [reflexivity|]. split; [discriminate|].
      intros _. split; [lia | reflexivity].
  - split; [reflexivity|]. split; [|discriminate].
    intros _. repeat split.
Qed.

(** X19: every mouse button event is forwarded to the remote session, in
    order, with the same flag, also the first button-down on Firefox.  On
    Firefox each event either focuses the canvas or blurs the screen
    viewer, and these events focus the canvas at most once; on other
    browsers neither ever happens. *)
Theorem mouseRun_forwards_all (nav : Navigator) (evts : list (MouseEvent * bool))
        (st : Pointer) :
  mouseButtonStates (mouseRun nav evts st)
  = mouseButtonStates st ++ map (fun e => (fst e, snd e, true)) evts /\
  (if isFirefox nav then
     canvasFocusCalls (mouseRun nav evts st) + screenViewerBlurCalls (mouseRun nav evts st)
     = canvasFocusCalls st + screenViewerBlurCalls st + length evts /\
     canvasFocusCalls (mouseRun nav evts st)
     <= canvasFocusCalls st + (if ffCnavasFocused st then 0 else 1)
   else
     canvasFocusCalls (mouseRun nav evts st) = canvasFocusCalls st /\
     screenViewerBlurCalls (mouseRun nav evts st) = screenViewerBlurCalls st).
Proof.
  revert st. induction evts as [|[state isDown] rest IH]; intros st.
  - simpl. rewrite app_nil_r. split; [reflexivity|].
    destruct (isFirefox nav); split; try reflexivity; try lia.
  - change (mouseRun nav ((state, isDown) :: rest) st)
      with (mouseRun nav rest (setMouseButtonState nav state isDown st)).
    destruct (IH (setMouseButtonState nav state isDown st)) as [Hlog Hcalls].
    destruct (setMouseButtonState_step nav state isDown st) as (Hl & Hother & Hff).
    split.
    + rewrite Hlog, Hl, <- app_assoc. reflexivity.
    + destruct (isFirefox nav).
      * destruct (Hff eq_refl) as [Hsum Hbound]. destruct Hcalls as [Hc1 Hc2].
        simpl length. split; lia.
      * destruct (Hother eq_refl) as (_ & Hc & Hb). destruct Hcalls as [Hc1 Hc2].
        rewrite Hc1, Hc2. split; assumption.
Qed.

(** ** Recognising Firefox *)

Lemma toLowerCase_append (a b : string) :
  toLowerCase (a ++ b) = (toLowerCase a ++ toLowerCase b)%string.
Proof. induction a as [|c a IH]; simpl; [reflexivity | rewrite IH; reflexivity]. Qed.

Lemma toLowerCase_length (s : string) : String.length (toLowerCase s) = String.length s.
Proof. induction s as [|c s IH]; simpl; [reflexivity | rewrite IH; reflexivity]. Qed.

Lemma substring_prefix (b c : string) :
  substring 0 (String.length b) (b ++ c) = b.
Proof.
  induction b as [|x b IH]; simpl.
  - destruct c; reflexivity.
  - rewrite IH. reflexivity.
Qed.

Lemma substring_middle (a b c : string) :
  substring (String.length a) (String.length b) (a ++ b ++ c) = b.
Proof. induction a as [|x a IH]; simpl; [apply substring_prefix | exact IH]. Qed.

Lemma substring_toLowerCase (s : string) :
  forall m n, substring m n (toLowerCase s) = toLowerCase (substring m n s).
Proof.
  induction s as [|c s IH]; intros m n.
  - destruct m, n; reflexivity.
  - destruct m as [|m]; simpl.
    + destruct n as [|n]; simpl; [reflexivity|]. rewrite IH. reflexivity.
    + apply IH.
Qed.

Lemma substring_decompose_prefix (s : string) :
  forall n,
    String.length (substring 0 n s) = n ->
    exists post, s = (substring 0 n s ++ post)%string.
Proof.
  induction s as [|c s IH]; intros n Hlen.
  - destruct n; simpl in *; [|discriminate]. exists EmptyString. reflexivity.
  - destruct n as [|n]; simpl in *.
    + exists (String c s). reflexivity.
    + injection Hlen as Hlen. destruct (IH n Hlen) as (post & Hs).
      exists post. f_equal. exact Hs.
Qed.

Lemma substring_decompose (s : string) :
  forall m n,
    0 < n ->
    String.length (substring m n s) = n ->
    exists pre post, s = (pre ++ substring m n s ++ post)%string.
Proof.
  induction s as [|c s IH]; intros m n Hn Hlen.
  - destruct m, n; simpl in *; try discriminate; lia.
  - destruct m as [|m].
    + destruct (substring_decompose_prefix (String c s) n Hlen) as (post & Hs).
      exists EmptyString, post. exact Hs.
    + simpl in *. destruct (IH m n Hn Hlen) as (pre & post & Hs).
      exists (String c pre), post. simpl. f_equal. exact Hs.
Qed.

(** X20: the Firefox test succeeds exactly when the user-agent string
    contains the letters of "firefox" consecutively, each in either ASCII
    case, at any position. *)
Theorem isFirefox_iff_contains (nav : Navigator) :
  isFirefox nav = true <->
  exists pre mid post,
    userAgent nav = (pre ++ mid ++ post)%string /\ toLowerCase mid = "firefox".
Proof.
  unfold isFirefox, indexOf. split.
  - destruct (index 0 "firefox" (toLowerCase (userAgent nav))) as [m|] eqn:E;
      [intros _ | discriminate].
    apply index_correct1 in E. rewrite substring_toLowerCase in E.
    assert (Hlen : String.length (substring m 7 (userAgent nav)) = 7)
      by (rewrite <- (toLowerCase_length (substring m 7 (userAgent nav)));
          change (String.length "firefox") with 7 in E; rewrite E; reflexivity).
    destruct (substring_decompose (userAgent nav) m 7 ltac:(lia) Hlen) as (pre & post & Hs).
    exists pre, (substring m 7 (userAgent nav)), post. split; [exact Hs | exact E].
  - intros (pre & mid & post & Hua & Hmid).
    destruct (index 0 "firefox" (toLowerCase (userAgent nav))) as [m|] eqn:E.
    + destruct m; reflexivity.
    + exfalso.
      apply (index_correct3 0 (String.length (toLowerCase pre)) _ _ E);
        [discriminate | apply Nat.le_0_l |].
      rewrite Hua, !toLowerCase_append, Hmid.
      apply (substring_middle (toLowerCase pre) "firefox" (toLowerCase post)).
Qed.

(** ** Termination of the retry-wait timers *)

Lemma pendingWaits_none (l : list (Callback * nat)) :
  removeTimeout WaitForRemoteClipboardDataSet l = None -> pendingWaits l = 0.
Proof.
  unfold pendingWaits. induction l as [|t r IH]; simpl; [reflexivity|].
  destruct (callbackEqb (fst t) WaitForRemoteClipboardDataSet); [discriminate|].
  destruct (removeTimeout WaitForRemoteClipboardDataSet r); [discriminate|].
  intros _. exact (IH eq_refl).
Qed.

Lemma pendingWaits_some (l l' : list (Callback * nat)) :
  removeTimeout WaitForRemoteClipboardDataSet l = Some l' ->
  pendingWaits l = S (pendingWaits l').
Proof.
  unfold pendingWaits. revert l'. induction l as [|t r IH]; simpl; intros l' H; [discriminate|].
  destruct (callbackEqb (fst t) WaitForRemoteClipboardDataSet) eqn:E.
  - inversion H; subst. reflexivity.
  - destruct (removeTimeout WaitForRemoteClipboardDataSet r) as [r'|]; [|discriminate].
    inversion H; subst. simpl. rewrite E. exact (IH r' eq_refl).
Qed.

(** A firing of a wait timeout uses up one unit of retries left plus
    pending wait timeouts. *)
Lemma fire_wait_measure (st : Bridge) (l : list (Callback * nat)) :
  removeTimeout WaitForRemoteClipboardDataSet (timeouts st) = Some l ->
  S (ffRemoteClipboardDataRetriesLeft (fire WaitForRemoteClipboardDataSet st)
     + pendingWaits (timeouts (fire WaitForRemoteClipboardDataSet st)))
  = ffRemoteClipboardDataRetriesLeft st + pendingWaits (timeouts st).
Proof.
  intros Hl. rewrite (pendingWaits_some _ _ Hl). unfold fire. rewrite Hl.
  unfold ffWaitForRemoteClipboardDataSet, pendingWaits. simpl.
  destruct (ffRemoteClipboardData st) as [data|].
  - destruct (items data) as [its|]; simpl; [|lia].
    destruct (writeFirstTextPlain_frame its (setRemoteData None (setTimeouts l st)))
      as (_ & _ & Hr & _ & _ & _ & Ht & _).
    rewrite Hr, Ht. simpl. lia.
  - destruct (ffRemoteClipboardDataRetriesLeft st) as [|r] eqn:Hr; simpl;
      rewrite ?Hr; [lia|].
    rewrite filter_app, length_app. simpl. lia.
Qed.

Lemma ffOnRemoteClipboardChanged_measure (data : ClipboardData) (st : Bridge) :
  ffRemoteClipboardDataRetriesLeft (ffOnRemoteClipboardChanged data st)
  = ffRemoteClipboardDataRetriesLeft st /\
  timeouts (ffOnRemoteClipboardChanged data st) = timeouts st.
Proof. unfold ffOnRemoteClipboardChanged. destruct (items data); split; reflexivity. Qed.

Lemma waitChain_bounded (arrivals : nat -> option ClipboardData) (fuel : nat) :
  forall st fired,
    ffRemoteClipboardDataRetriesLeft st + pendingWaits (timeouts st) <= fuel ->
    exists n st',
      waitChain fuel arrivals fired st = Some (n, st') /\
      n <= fired + ffRemoteClipboardDataRetriesLeft st + pendingWaits (timeouts st) /\
      removeTimeout WaitForRemoteClipboardDataSet (timeouts st') = None.
Proof.
  induction fuel as [|fuel IH]; intros st fired Hm.
  - destruct (removeTimeout WaitForRemoteClipboardDataSet (timeouts st)) as [l|] eqn:E.
    + rewrite (pendingWaits_some _ _ E) in Hm. lia.
    + rewrite (waitChain_done 0 arrivals fired st E).
      exists fired, st. split; [reflexivity|]. split; [lia | exact E].
  - destruct (removeTimeout WaitForRemoteClipboardDataSet (timeouts st)) as [l|] eqn:E.
    + rewrite (waitChain_step fuel arrivals fired st l E).
      set (st1 := match arrivals fired with
                  | Some data => ffOnRemoteClipboardChanged data st
                  | None => st
                  end).
      assert (H1 : ffRemoteClipboardDataRetriesLeft st1 = ffRemoteClipboardDataRetriesLeft st
                   /\ timeouts st1 = timeouts st).
      { unfold st1. destruct (arrivals fired) as [data|];
          [apply ffOnRemoteClipboardChanged_measure | split; reflexivity]. }
      destruct H1 as [Hr Ht].
      assert (E1 : removeTimeout WaitForRemoteClipboardDataSet (timeouts st1) = Some l)
        by (rewrite Ht; exact E).
      pose proof (fire_wait_measure st1 l E1) as Hstep. rewrite Hr, Ht in Hstep.
      destruct (IH (fire WaitForRemoteClipboardDataSet st1) (S fired)) as (n & st' & Hw & Hn & Hd);
        [lia|].
      exists n, st'. split; [exact Hw|]. split; [lia | exact Hd].
    + rewrite (waitChain_done (S fuel) arrivals fired st E).
      exists fired, st. split; [reflexivity|]. split; [lia | exact E].
Qed.

(** X21: the retry-wait timers always run out.  From any state of the
    bridge, with however many wait timeouts pending from earlier key events
    and whatever payloads arrive in between, no wait timeout is pending any
    more after at most as many firings as there are retries left plus
    pending wait timeouts. *)
Theorem waitChain_terminates (arrivals : nat -> option ClipboardData) (st : Bridge)
        (fuel : nat) :
  ffRemoteClipboardDataRetriesLeft st + pendingWaits (timeouts st) <= fuel ->
  exists n st',
    waitChain fuel arrivals 0 st = Some (n, st') /\
    n <= ffRemoteClipboardDataRetriesLeft st + pendingWaits (timeouts st) /\
    removeTimeout WaitForRemoteClipboardDataSet (timeouts st') = None.
Proof.
  intros Hm. destruct (waitChain_bounded arrivals fuel st 0 Hm) as (n & st' & Hw & Hn & Hd).
  exists n, st'. split; [exact Hw|]. split; [lia | exact Hd].
Qed.

Lemma waitChain_terminates_witness :
  exists n st',
    waitChain 31 (fun _ => None) 0
      (keyboardEvent (mkKey true "KeyC") (keyboardEvent (mkKey true "KeyC") firefoxBridge))
    = Some (n, st') /\
    n <= ffRemoteClipboardDataRetriesLeft
           (keyboardEvent (mkKey true "KeyC") (keyboardEvent (mkKey true "KeyC") firefoxBridge))
         + pendingWaits
             (timeouts (keyboardEvent (mkKey true "KeyC")
                          (keyboardEvent (mkKey true "KeyC") firefoxBridge))) /\
    removeTimeout WaitForRemoteClipboardDataSet (timeouts st') = None.
Proof.
  refine (waitChain_terminates (fun _ => None)
            (keyboardEvent (mkKey true "KeyC") (keyboardEvent (mkKey true "KeyC") firefoxBridge))
            31 _).
  vm_compute. lia.
Defined.

(** ** What detection registers *)

(** X22: the registration left by [initClipboard] is coherent with the
    mode.  The polling loop is started, and the asynchronous API flagged as
    supported, exactly in standard mode; the format-list callback is
    registered exactly in degraded mode; the force-update callback is
    registered exactly when a clipboard-changed handler is, that is in
    every mode but the unsupported one. *)
Theorem initClipboard_registration (nav : Navigator) :
  (monitoringStarted (initClipboard nav) = true
   <-> clipboardMode (initClipboard nav) = Standard) /\
  (isClipboardApiSupported (initClipboard nav) = true
   <-> clipboardMode (initClipboard nav) = Standard) /\
  (remoteReceivedFormatList (initClipboard nav) = true
   <-> clipboardMode (initClipboard nav) = Degraded) /\
  (forceClipboardUpdate (initClipboard nav) = false
   <-> clipboardMode (initClipboard nav) = Unsupported).
Proof.
  unfold initClipboard. destruct (isFirefox nav); simpl.
  - repeat split; intros H; try reflexivity; discriminate.
  - destruct (clipboard nav) as [api|]; simpl.
    + destruct (hasRead api && hasWrite api); simpl;
        repeat split; intros H; try reflexivity; discriminate.
    + repeat split; intros H; try reflexivity; discriminate.
Qed.

(** ** A tick on an unchanged clipboard *)

Lemma monitorKinds_idle (item : ReadItem) (received : Rec JsValue) (kinds : list string) :
  forall p,
    (forall kind, In kind kinds ->
       exists blob, getType item kind = Some blob /\
                    recGet (client p) kind = Some (readValue kind blob)) ->
    monitorKinds item received kinds p
    = (mkPass (client p) (observe item kinds (values p)) (sameValue p), None).
Proof.
  induction kinds as [|kind rest IH]; intros p Hsame; simpl.
  - destruct p; reflexivity.
  - destruct (Hsame kind (or_introl eq_refl)) as (blob & Hget & Hprev).
    unfold monitorKind. rewrite Hget.
    rewrite (proj2 (is_equal_spec kind blob _) Hprev). simpl.
    rewrite IH; [reflexivity|].
    intros k Hk. apply Hsame. right. exact Hk.
Qed.

(** X23: a tick that finds, for every kind of the clipboard entry, the
    value the client snapshot already holds changes no variable of the
    component and sends nothing; it only reschedules the next tick. *)
Theorem onMonitorClipboard_unchanged_is_idle
        (item : ReadItem) (more : list ReadItem) (st : Component) :
  (forall kind, In kind (types item) ->
     exists blob, getType item kind = Some blob /\
                  recGet (lastClientClipboardItems (vars st)) kind
                  = Some (readValue kind blob)) ->
  onMonitorClipboard (ReadResolved (item :: more)) st = monitorFinally st.
Proof.
  intros Hsame. unfold onMonitorClipboard. f_equal.
  unfold monitorTry. destruct (hasFocus st) eqn:Hf; simpl; [|reflexivity].
  destruct (negb (existsb eligible (types item))); [reflexivity|].
  rewrite (monitorKinds_idle item (lastReceivedClipboardData (vars st)) (types item)
             (mkPass (lastClientClipboardItems (vars st)) [] true) Hsame).
  simpl. destruct st as [f q [a b c d e g h i]]. simpl in *. subst f. reflexivity.
Qed.

Lemma onMonitorClipboard_unchanged_is_idle_witness :
  onMonitorClipboard
    (ReadResolved
       (readItemOf [("text/plain", newBlob (VString "hello") "text/plain")] :: []))
    (onMonitorClipboard helloRead helloReceived)
  = monitorFinally (onMonitorClipboard helloRead helloReceived).
Proof.
  refine (onMonitorClipboard_unchanged_is_idle
            (readItemOf [("text/plain", newBlob (VString "hello") "text/plain")]) []
            (onMonitorClipboard helloRead helloReceived) _).
  intros kind [<-|[]]. eexists. split; reflexivity.
Defined.
